(** * marketsignal-native: the client-side synchronisation logic

    A shallow embedding of the key/value cache ([lib/cache.ts]), the
    observable store ([lib/store.ts]), the alerts screen, the audit-trail
    screen and the create-alert form, with the properties the
    specification states about them.

    Asynchronous functions are embedded as functions from a [World] to a
    completion (a value or a thrown error) and the next world.  The world
    holds what the functions touch: the contents of AsyncStorage, the
    zustand store, the component's local state, the realtime
    subscriptions and the trace of effects performed so far.  What the
    client cannot decide (whether a storage call rejects, what the backend
    answers) is read from two oracles held by the world. *)

From Stdlib Require Import String Ascii List Bool Floats Uint63 ZArith Lia.
From Stdlib Require Import DecimalString.
From stdpp Require Import gmap strings list.
Import ListNotations.

Local Open Scope string_scope.
Local Open Scope list_scope.

(** ** JavaScript values used by the sources *)

(** A JavaScript [number] is an IEEE 754 binary64 value. *)
Abbreviation number := float.

(** Errors that the modelled code can see thrown or returned. *)
Inductive JSError : Type :=
| StorageError                       (* a rejected AsyncStorage promise *)
| SyntaxError                        (* JSON.parse on malformed text *)
| TypeError                          (* JSON.stringify on a cyclic value *)
| PostgrestError (message : string). (* the [error] of a backend response *)

(** The completion of a function body: it returns or it throws. *)
Inductive Completion (A : Type) : Type :=
| Normal (a : A)
| Throw (e : JSError).
Arguments Normal {A} a.
Arguments Throw {A} e.

(** [String.prototype.trim], [toUpperCase] and [replace] over ASCII code
    units (the symbol field is a ticker of at most ten characters). *)
Definition is_whitespace (c : ascii) : bool :=
  let n := nat_of_ascii c in
  (Nat.eqb n 9 || Nat.eqb n 10 || Nat.eqb n 11 || Nat.eqb n 12
   || Nat.eqb n 13 || Nat.eqb n 32)%bool.

Fixpoint trimStart (s : string) : string :=
  match s with
  | String c s' => if is_whitespace c then trimStart s' else s
  | EmptyString => EmptyString
  end.

Fixpoint trimEnd (s : string) : string :=
  match s with
  | String c s' =>
      match trimEnd s' with
      | EmptyString => if is_whitespace c then EmptyString else String c EmptyString
      | t => String c t
      end
  | EmptyString => EmptyString
  end.

Definition trim (s : string) : string := trimStart (trimEnd s).

Definition upper_char (c : ascii) : ascii :=
  let n := nat_of_ascii c in
  if (Nat.leb 97 n && Nat.leb n 122)%bool then ascii_of_nat (n - 32) else c.

Fixpoint toUpperCase (s : string) : string :=
  match s with
  | String c s' => String (upper_char c) (toUpperCase s')
  | EmptyString => EmptyString
  end.

Fixpoint drop_chars (n : nat) (s : string) : string :=
  match n, s with
  | S n', String _ s' => drop_chars n' s'
  | _, _ => s
  end.

(** [s.replace(pat, rep)] with a string pattern: the first occurrence only. *)
Fixpoint replace (pat rep s : string) : string :=
  if String.prefix pat s then rep ++ drop_chars (String.length pat) s
  else match s with
       | String c s' => String c (replace pat rep s')
       | EmptyString => EmptyString
       end.

(** [s.includes(sub)] *)
Fixpoint includes (sub s : string) : bool :=
  if String.prefix sub s then true
  else match s with
       | String _ s' => includes sub s'
       | EmptyString => false
       end.

(** ** The records of [types/index.ts] *)

Module Metadata.
Record t : Type := { timeframe : string }.
End Metadata.

Module Alert.
Record t : Type := {
  id : string;
  user_id : string;
  title : string;
  asset_type : string;
  symbol : string;
  condition_type : string;
  condition_value : number;
  notification_email : bool;
  notification_telegram : bool;
  is_active : bool;
  triggered_at : option string;
  metadata : Metadata.t;
  created_at : string;
  updated_at : string
}.

(** The object spread [{ ...a, is_active: b }]. *)
Definition with_is_active (b : bool) (a : t) : t :=
  {| id := id a; user_id := user_id a; title := title a;
     asset_type := asset_type a; symbol := symbol a;
     condition_type := condition_type a;
     condition_value := condition_value a;
     notification_email := notification_email a;
     notification_telegram := notification_telegram a;
     is_active := b;
     triggered_at := triggered_at a; metadata := metadata a;
     created_at := created_at a; updated_at := updated_at a |}.
End Alert.

Module Profile.
Record t : Type := {
  id : string;
  email : string;
  full_name : option string;
  is_admin : bool;
  email_notifications : bool;
  telegram_notifications : bool;
  telegram_chat_id : option string;
  push_token : option string;
  created_at : string
}.
End Profile.

Module AuditTrailEntry.
Record t : Type := {
  id : string;
  alert_id : string;
  symbol : string;
  triggered_at : string;
  condition_type : string;
  condition_value : number;
  current_value : number;
  previous_rsi : option number;
  current_rsi : option number;
  notification_sent : bool;
  notification_method : option string
}.
End AuditTrailEntry.

(** The signed-in user of the auth context; only its id is read. *)
Module User.
Record t : Type := { id : string }.
End User.

(** The two declarations of the condition type found in the repository:
    [ConditionType] of the extended type file, and the union written
    inline in the [Alert] interface of [types/index.ts]. *)
Definition ConditionType : list string :=
  [ "price_above"; "price_below"; "price_cross_above"; "price_cross_below";
    "rsi_above"; "rsi_below"; "rsi_cross_above"; "rsi_cross_below" ].

Definition Alert_condition_type : list string :=
  [ "rsi_above"; "rsi_below"; "price_above"; "price_below" ].

Definition is_member (s : string) (l : list string) : bool :=
  existsb (String.eqb s) l.

(** ** The backend client ([lib/supabase.ts])

    A request is the record of the query-builder calls made on
    [supabase.from(table)]; what the backend answers is not the client's
    to decide and is read from the world. *)

(** The object literal inserted by the create-alert form. *)
Module NewAlert.
Record t : Type := {
  user_id : option string;
  title : string;
  asset_type : string;
  symbol : string;
  condition_type : string;
  condition_value : number;
  notification_email : bool;
  notification_telegram : bool;
  is_active : bool;
  metadata : Metadata.t
}.
End NewAlert.

Module supabase.

Inductive Verb : Type :=
| Select (columns : string)
| Insert (row : NewAlert.t)
| Update (is_active : bool)          (* .update({ is_active }) *)
| Delete.

Record Query : Type := {
  table : string;
  verb : option Verb;
  filters : list (string * option string);   (* .eq(column, value) *)
  ordering : option (string * bool);          (* column, ascending *)
  row_limit : option nat;
  returning : bool;                           (* .select() after a write *)
  single_row : bool
}.

Definition from (t : string) : Query :=
  {| table := t; verb := None; filters := []; ordering := None;
     row_limit := None; returning := false; single_row := false |}.

Definition with_verb (v : Verb) (q : Query) : Query :=
  {| table := table q; verb := Some v; filters := filters q;
     ordering := ordering q; row_limit := row_limit q;
     returning := returning q; single_row := single_row q |}.

Definition select (columns : string) (q : Query) : Query :=
  match verb q with
  | None => with_verb (Select columns) q
  | Some _ =>
      {| table := table q; verb := verb q; filters := filters q;
         ordering := ordering q; row_limit := row_limit q;
         returning := true; single_row := single_row q |}
  end.

Definition insert (row : NewAlert.t) : Query -> Query := with_verb (Insert row).
Definition update (is_active : bool) : Query -> Query := with_verb (Update is_active).
Definition delete : Query -> Query := with_verb Delete.

Definition eq (column : string) (value : option string) (q : Query) : Query :=
  {| table := table q; verb := verb q;
     filters := filters q ++ [(column, value)];
     ordering := ordering q; row_limit := row_limit q;
     returning := returning q; single_row := single_row q |}.

Definition order (column : string) (ascending : bool) (q : Query) : Query :=
  {| table := table q; verb := verb q; filters := filters q;
     ordering := Some (column, ascending); row_limit := row_limit q;
     returning := returning q; single_row := single_row q |}.

Definition limit (n : nat) (q : Query) : Query :=
  {| table := table q; verb := verb q; filters := filters q;
     ordering := ordering q; row_limit := Some n;
     returning := returning q; single_row := single_row q |}.

Definition single (q : Query) : Query :=
  {| table := table q; verb := verb q; filters := filters q;
     ordering := ordering q; row_limit := row_limit q;
     returning := returning q; single_row := true |}.

(** The destructured [{ data, error }] of an awaited query. *)
Record Response (R : Type) : Type := {
  data : option (list R);
  error : option JSError
}.
Arguments data {R} _.
Arguments error {R} _.

(** The realtime channel registered by [.channel(name).on(...).subscribe()]. *)
Record ChangeFilter : Type := {
  event : string;
  schema : string;
  changes_table : string;
  filter : string
}.

End supabase.

Notation "x |> f" := (f x) (at level 45, left associativity, only parsing).

(** ** The world *)

Inductive StorageCall : Type :=
| GetItem (key : string)
| SetItem (key value : string)
| RemoveItem (key : string)
| Clear.

(** The callback handed to a realtime subscription.  The alerts screen
    registers one kind only: [() => { fetchAlerts() }], closed over the
    user of the render that ran the effect. *)
Inductive Callback : Type :=
| CallFetchAlerts (user : option User.t).

Record Subscription : Type := {
  channel : string;
  changes : supabase.ChangeFilter;
  callback : Callback
}.

Inductive Event : Type :=
| EvStorage (call : StorageCall)
| EvRequest (q : supabase.Query)
| EvSetAlerts (alerts : list Alert.t)
| EvDialog (title message : string) (buttons : list string)
| EvConsoleError (label : string)
| EvProp (name : string).              (* a callback prop was invoked *)

Record World (R L : Type) : Type := {
  storage_items : gmap string string;       (* AsyncStorage *)
  storage_rejects : nat -> bool;            (* does the n-th call reject *)
  storage_calls : nat;
  backend : nat -> supabase.Query -> supabase.Response R;
  backend_calls : nat;
  store_alerts : list Alert.t;              (* useStore().alerts *)
  store_profile : option Profile.t;         (* useStore().profile *)
  subscriptions : list Subscription;
  trace : list Event;                       (* oldest first *)
  local : L                                 (* the component's useState cells *)
}.
Arguments storage_items {R L} _.
Arguments storage_rejects {R L} _.
Arguments storage_calls {R L} _.
Arguments backend {R L} _.
Arguments backend_calls {R L} _.
Arguments store_alerts {R L} _.
Arguments store_profile {R L} _.
Arguments subscriptions {R L} _.
Arguments trace {R L} _.
Arguments local {R L} _.

Section Async.
Context {R L : Type}.

Definition Async (A : Type) : Type := World R L -> Completion A * World R L.

Definition ret {A : Type} (a : A) : Async A := fun w => (Normal a, w).

Definition throw {A : Type} (e : JSError) : Async A := fun w => (Throw e, w).

Definition bind {A B : Type} (m : Async A) (k : A -> Async B) : Async B :=
  fun w =>
    match m w with
    | (Normal a, w') => k a w'
    | (Throw e, w') => (Throw e, w')
    end.

(** [try { body } catch (error) { handler }] *)
Definition try_catch {A : Type} (body : Async A) (handler : JSError -> Async A)
  : Async A :=
  fun w =>
    match body w with
    | (Normal a, w') => (Normal a, w')
    | (Throw e, w') => handler e w'
    end.

(** [try { body } finally { final }] *)
Definition try_finally {A : Type} (body : Async A) (final : Async unit)
  : Async A :=
  fun w =>
    match body w with
    | (c, w') =>
        match final w' with
        | (Normal _, w'') => (c, w'')
        | (Throw e, w'') => (Throw e, w'')
        end
    end.

Definition log (e : Event) : Async unit :=
  fun w =>
    (Normal tt,
     {| storage_items := storage_items w; storage_rejects := storage_rejects w;
        storage_calls := storage_calls w; backend := backend w;
        backend_calls := backend_calls w; store_alerts := store_alerts w;
        store_profile := store_profile w; subscriptions := subscriptions w;
        trace := trace w ++ [e]; local := local w |}).

Definition console_error (label : string) : Async unit := log (EvConsoleError label).

(** React Native's [Alert.alert(title, message, buttons)]. *)
Definition RNAlert (title message : string) (buttons : list string) : Async unit :=
  log (EvDialog title message buttons).

Definition modify_local (f : L -> L) : Async unit :=
  fun w =>
    (Normal tt,
     {| storage_items := storage_items w; storage_rejects := storage_rejects w;
        storage_calls := storage_calls w; backend := backend w;
        backend_calls := backend_calls w; store_alerts := store_alerts w;
        store_profile := store_profile w; subscriptions := subscriptions w;
        trace := trace w; local := f (local w) |}).

(** [set({ alerts })] of the store ([lib/store.ts]). *)
Definition setAlerts (alerts : list Alert.t) : Async unit :=
  fun w =>
    (Normal tt,
     {| storage_items := storage_items w; storage_rejects := storage_rejects w;
        storage_calls := storage_calls w; backend := backend w;
        backend_calls := backend_calls w; store_alerts := alerts;
        store_profile := store_profile w; subscriptions := subscriptions w;
        trace := trace w ++ [EvSetAlerts alerts]; local := local w |}).

(** Awaiting a built query: the request is sent and the backend's answer
    to it is the next one of the world's oracle. *)
Definition await_query (q : supabase.Query) : Async (supabase.Response R) :=
  fun w =>
    (Normal (backend w (backend_calls w) q),
     {| storage_items := storage_items w; storage_rejects := storage_rejects w;
        storage_calls := storage_calls w; backend := backend w;
        backend_calls := S (backend_calls w); store_alerts := store_alerts w;
        store_profile := store_profile w; subscriptions := subscriptions w;
        trace := trace w ++ [EvRequest q]; local := local w |}).

Definition subscribe (s : Subscription) : Async unit :=
  fun w =>
    (Normal tt,
     {| storage_items := storage_items w; storage_rejects := storage_rejects w;
        storage_calls := storage_calls w; backend := backend w;
        backend_calls := backend_calls w; store_alerts := store_alerts w;
        store_profile := store_profile w;
        subscriptions := subscriptions w ++ [s];
        trace := trace w; local := local w |}).

End Async.

Notation "'let*' x ':=' m 'in' k" := (bind m (fun x => k))
  (at level 10, x name, m at level 100, k at level 200).
Notation "m ';;' k" := (bind m (fun _ => k))
  (at level 100, k at level 200, right associativity).

(** ** AsyncStorage

    Each call is one step of the storage oracle: a call that rejects
    throws and leaves the stored items as they were. *)
Module AsyncStorage.
Section AsyncStorage.
Context {R L : Type}.

Definition call {A : Type} (c : StorageCall)
    (effect : gmap string string -> gmap string string)
    (result : gmap string string -> A) : Async (R := R) (L := L) A :=
  fun w =>
    let rejected := storage_rejects w (storage_calls w) in
    ((if rejected then Throw StorageError else Normal (result (storage_items w))),
     {| storage_items :=
          (if rejected then storage_items w else effect (storage_items w));
        storage_rejects := storage_rejects w;
        storage_calls := S (storage_calls w); backend := backend w;
        backend_calls := backend_calls w; store_alerts := store_alerts w;
        store_profile := store_profile w; subscriptions := subscriptions w;
        trace := trace w ++ [EvStorage c]; local := local w |}).

Definition setItem (key value : string) : Async unit :=
  call (SetItem key value) (fun m => <[key:=value]> m) (fun _ => tt).

Definition getItem (key : string) : Async (option string) :=
  call (GetItem key) (fun m => m) (fun m => m !! key).

Definition removeItem (key : string) : Async unit :=
  call (RemoveItem key) (fun m => delete key m) (fun _ => tt).

Definition clear : Async unit :=
  call Clear (fun _ => ∅) (fun _ => tt).

End AsyncStorage.
End AsyncStorage.

(** ** JSON

    [JSON.stringify] and [JSON.parse] belong to the language runtime.  The
    cache is written against any value type that comes with the two
    functions: [stringify] gives no text when it throws, and [parse]
    throws on malformed text or yields [null] or a value. *)
Module JSON.
Inductive Parsed (V : Type) : Type :=
| Malformed
| Null
| Value (v : V).
Arguments Malformed {V}.
Arguments Null {V}.
Arguments Value {V} v.

Class Codec (V : Type) : Type := {
  stringify : V -> option string;
  parse : string -> Parsed V
}.
End JSON.

(** ** [lib/cache.ts] *)
Module cache.
Section cache.
Context {R L V : Type} `{JSON.Codec V}.

Local Abbreviation Async := (Async (R := R) (L := L)).

Definition set (key : string) (value : V) : Async unit :=
  try_catch
    (match JSON.stringify value with
     | Some text => AsyncStorage.setItem key text
     | None => throw TypeError
     end)
    (fun _ => console_error "Error setting cache:").

(** [return value ? JSON.parse(value) : null]: a missing item and the
    empty string are both falsy. *)
Definition get (key : string) : Async (option V) :=
  try_catch
    (let* value := AsyncStorage.getItem key in
     match value with
     | Some text =>
         if String.eqb text "" then ret None
         else match JSON.parse text with
              | JSON.Value v => ret (Some v)
              | JSON.Null => ret None
              | JSON.Malformed => throw SyntaxError
              end
     | None => ret None
     end)
    (fun _ => console_error "Error getting cache:" ;; ret None).

Definition remove (key : string) : Async unit :=
  try_catch (AsyncStorage.removeItem key)
            (fun _ => console_error "Error removing cache:").

Definition clear : Async unit :=
  try_catch AsyncStorage.clear
            (fun _ => console_error "Error clearing cache:").

(** A caller's sequence of cache operations. *)
Inductive Op : Type :=
| OpSet (key : string) (value : V)
| OpGet (key : string)
| OpRemove (key : string)
| OpClear.

Definition run_op (o : Op) : Async unit :=
  match o with
  | OpSet key value => set key value
  | OpGet key => get key ;; ret tt
  | OpRemove key => remove key
  | OpClear => clear
  end.

Fixpoint run_ops (ops : list Op) : Async unit :=
  match ops with
  | [] => ret tt
  | o :: rest => run_op o ;; run_ops rest
  end.

Definition is_set_of (key : string) (o : Op) : bool :=
  match o with
  | OpSet k _ => String.eqb k key
  | _ => false
  end.

(** Does the operation write, remove or clear the entry of [key]. *)
Definition touches (key : string) (o : Op) : bool :=
  match o with
  | OpSet k _ | OpRemove k => String.eqb k key
  | OpClear => true
  | OpGet _ => false
  end.

End cache.
Arguments Op V : clear implicits.
End cache.

(** What [JSON.parse(text)] evaluates to where it does not throw. *)
Definition parsed_value {V : Type} (p : JSON.Parsed V) : option V :=
  match p with
  | JSON.Value v => Some v
  | JSON.Null | JSON.Malformed => None
  end.

(** The text a template literal gives for [${user?.id}]. *)
Definition template_of (value : option string) : string :=
  match value with
  | Some s => s
  | None => "undefined"
  end.

(** ** The alerts screen

    A handler closes over the values of the render that created it; the
    captured [user] and [alerts] are the explicit first arguments here.
    A call that the source does not await is run to completion where it
    is made. *)
Module AlertsScreen.

Record State : Type := {
  loading : bool;
  refreshing : bool;
  modalVisible : bool
}.

Definition initial : State :=
  {| loading := true; refreshing := false; modalVisible := false |}.

Section AlertsScreen.
Context `{JSON.Codec (list Alert.t)}.

Local Abbreviation Async := (Async (R := Alert.t) (L := State)).

Definition setLoading (b : bool) : Async unit :=
  modify_local (fun s => {| loading := b; refreshing := refreshing s;
                            modalVisible := modalVisible s |}).

Definition setRefreshing (b : bool) : Async unit :=
  modify_local (fun s => {| loading := loading s; refreshing := b;
                            modalVisible := modalVisible s |}).

Definition setModalVisible (b : bool) : Async unit :=
  modify_local (fun s => {| loading := loading s; refreshing := refreshing s;
                            modalVisible := b |}).

Definition alerts_query (user : option User.t) : supabase.Query :=
  supabase.from "alerts"
  |> supabase.select "*"
  |> supabase.eq "user_id" (option_map User.id user)
  |> supabase.order "created_at" false.

(** The block [if (!isRefresh) { ... }] of [fetchAlerts]: load from cache
    first. *)
Definition load_from_cache (isRefresh : bool) : Async unit :=
  if negb isRefresh then
    let* cached := cache.get "alerts" in
    match cached with
    | Some l => if Nat.ltb 0 (length l) then setAlerts l else ret tt
    | None => ret tt
    end
  else ret tt.

Definition fetchAlerts (user : option User.t) (isRefresh : bool) : Async unit :=
  try_finally
    (try_catch
       (load_from_cache isRefresh ;;
        (* Fetch fresh data *)
        let* r := await_query (alerts_query user) in
        match supabase.error r with
        | Some e => throw e
        | None =>
            match supabase.data r with
            | Some rows => setAlerts rows ;; cache.set "alerts" rows
            | None => ret tt
            end
        end)
       (fun _ =>
          console_error "Error fetching alerts:" ;;
          RNAlert "Error" "Failed to load alerts" []))
    (setLoading false ;; setRefreshing false).

Definition alerts_changes (user : option User.t) : Subscription :=
  {| channel := "alerts-changes";
     changes := {| supabase.event := "*";
                   supabase.schema := "public";
                   supabase.changes_table := "alerts";
                   supabase.filter :=
                     "user_id=eq." ++ template_of (option_map User.id user) |};
     callback := CallFetchAlerts user |}.

Definition setupRealtimeSubscription (user : option User.t) : Async unit :=
  subscribe (alerts_changes user).

(** [useEffect(() => { if (user) { ... } }, [user])] *)
Definition useEffect_user (user : option User.t) : Async unit :=
  match user with
  | Some _ => fetchAlerts user false ;; setupRealtimeSubscription user
  | None => ret tt
  end.

(** The kinds of row change the feed reports. *)
Inductive Change : Type := INSERT | UPDATE | DELETE.

Definition run_callback (c : Callback) : Async unit :=
  match c with
  | CallFetchAlerts user => fetchAlerts user false
  end.

(** The realtime client hands a change to the callback of the
    subscription it arrived on; the callback takes no argument. *)
Definition deliver (s : Subscription) (change : Change) : Async unit :=
  run_callback (callback s).

Definition onRefresh (user : option User.t) : Async unit :=
  setRefreshing true ;; fetchAlerts user true.

(** [alerts.map(a => a.id === alert.id ? { ...a, is_active: !a.is_active } : a)] *)
Definition toggled (alerts : list Alert.t) (alert : Alert.t) : list Alert.t :=
  map (fun a =>
         if String.eqb (Alert.id a) (Alert.id alert)
         then Alert.with_is_active (negb (Alert.is_active a)) a
         else a)
      alerts.

Definition toggleAlertStatus (alerts : list Alert.t) (alert : Alert.t)
  : Async unit :=
  try_catch
    ((* Optimistic update - update UI immediately *)
     let updatedAlerts := toggled alerts alert in
     setAlerts updatedAlerts ;;
     cache.set "alerts" updatedAlerts ;;
     (* Update database *)
     let* r := await_query
                 (supabase.from "alerts"
                  |> supabase.update (negb (Alert.is_active alert))
                  |> supabase.eq "id" (Some (Alert.id alert))) in
     match supabase.error r with
     | Some e =>
         (* Revert on error *)
         setAlerts alerts ;;
         cache.set "alerts" alerts ;;
         throw e
     | None => ret tt
     end)
    (fun _ =>
       console_error "Error toggling alert:" ;;
       RNAlert "Error" "Failed to update alert status" []).

(** [alerts.filter(a => a.id !== alert.id)] *)
Definition without (alerts : list Alert.t) (alert : Alert.t) : list Alert.t :=
  List.filter (fun a => negb (String.eqb (Alert.id a) (Alert.id alert))) alerts.

(** The [onPress] of the dialog's Delete button. *)
Definition deleteAlert_onPress (user : option User.t)
    (alerts : list Alert.t) (alert : Alert.t) : Async unit :=
  try_catch
    ((* Optimistic delete - remove from UI immediately *)
     let updatedAlerts := without alerts alert in
     setAlerts updatedAlerts ;;
     cache.set "alerts" updatedAlerts ;;
     (* Delete from database *)
     let* r := await_query
                 (supabase.from "alerts"
                  |> supabase.delete
                  |> supabase.eq "id" (Some (Alert.id alert))) in
     match supabase.error r with
     | Some e =>
         (* Revert on error *)
         setAlerts alerts ;;
         cache.set "alerts" alerts ;;
         throw e
     | None =>
         (* Refetch to ensure sync *)
         fetchAlerts user true
     end)
    (fun _ =>
       console_error "Error deleting alert:" ;;
       RNAlert "Error" "Failed to delete alert" []).

Inductive Button : Type := Cancel | Delete.

(** [deleteAlert] opens the confirmation dialog; [pressed] is the button
    the user answers with. *)
Definition deleteAlert (user : option User.t) (alerts : list Alert.t)
    (alert : Alert.t) (pressed : Button) : Async unit :=
  RNAlert "Delete Alert"
          ("Are you sure you want to delete the alert for "
             ++ Alert.symbol alert ++ "?")
          ["Cancel"; "Delete"] ;;
  match pressed with
  | Cancel => ret tt
  | Delete => deleteAlert_onPress user alerts alert
  end.

End AlertsScreen.

(** [constants/Colors.ts], the two colours the badges use. *)
Definition colors_blue : string := "#3B82F6".
Definition colors_yellow : string := "#F59E0B".

Record Badge : Type := { label : string; color : string }.

Definition getAlertTypeBadge (alert : Alert.t) : Badge :=
  if includes "cross" (Alert.condition_type alert)
  then {| label := "Cross"; color := colors_yellow |}
  else {| label := "Threshold"; color := colors_blue |}.

Section display.
(** [Number.prototype.toLocaleString] and [toString] of the runtime. *)
Variable toLocaleString : number -> string.
Variable toString : number -> string.

(** [textMap[alert.condition_type] || alert.condition_type], the map
    having the eight keys below (a condition type that names a member of
    [Object.prototype] is outside this model). *)
Definition getConditionDisplay (alert : Alert.t) : string :=
  let value : string :=
    if String.prefix "price" (Alert.condition_type alert)
    then ("$" ++ toLocaleString (Alert.condition_value alert))%string
    else toString (Alert.condition_value alert) in
  let condition_type := Alert.condition_type alert in
  if String.eqb condition_type "price_above" then "Price ≥ " ++ value
  else if String.eqb condition_type "price_below" then "Price ≤ " ++ value
  else if String.eqb condition_type "price_cross_above"
  then "Price crosses ↗ " ++ value
  else if String.eqb condition_type "price_cross_below"
  then "Price crosses ↘ " ++ value
  else if String.eqb condition_type "rsi_above" then "RSI ≥ " ++ value
  else if String.eqb condition_type "rsi_below" then "RSI ≤ " ++ value
  else if String.eqb condition_type "rsi_cross_above"
  then "RSI crosses ↗ " ++ value
  else if String.eqb condition_type "rsi_cross_below"
  then "RSI crosses ↘ " ++ value
  else condition_type.

End display.

(** What the component returns: the loading text while nothing can be
    shown, the list otherwise. *)
Inductive View : Type :=
| LoadingText
| AlertList (alerts : list Alert.t) (count : nat) (refreshing : bool).

Definition render (alerts : list Alert.t) (s : State) : View :=
  if (loading s && Nat.eqb (length alerts) 0)%bool then LoadingText
  else AlertList alerts (length alerts) (refreshing s).

End AlertsScreen.

(** ** The store ([lib/store.ts]) *)
Module useStore.

Record AppState : Type := {
  alerts : list Alert.t;
  profile : option Profile.t
}.

Definition initial : AppState := {| alerts := []; profile := None |}.

(** [Partial<Alert>]: each field given or left out. *)
Record Updates : Type := {
  id : option string;
  user_id : option string;
  title : option string;
  asset_type : option string;
  symbol : option string;
  condition_type : option string;
  condition_value : option number;
  notification_email : option bool;
  notification_telegram : option bool;
  is_active : option bool;
  triggered_at : option (option string);
  metadata : option Metadata.t;
  created_at : option string;
  updated_at : option string
}.

Definition given {A : Type} (update : option A) (current : A) : A :=
  match update with
  | Some v => v
  | None => current
  end.

(** [{ ...alert, ...updates }] *)
Definition spread (alert : Alert.t) (updates : Updates) : Alert.t :=
  {| Alert.id := given (id updates) (Alert.id alert);
     Alert.user_id := given (user_id updates) (Alert.user_id alert);
     Alert.title := given (title updates) (Alert.title alert);
     Alert.asset_type := given (asset_type updates) (Alert.asset_type alert);
     Alert.symbol := given (symbol updates) (Alert.symbol alert);
     Alert.condition_type :=
       given (condition_type updates) (Alert.condition_type alert);
     Alert.condition_value :=
       given (condition_value updates) (Alert.condition_value alert);
     Alert.notification_email :=
       given (notification_email updates) (Alert.notification_email alert);
     Alert.notification_telegram :=
       given (notification_telegram updates) (Alert.notification_telegram alert);
     Alert.is_active := given (is_active updates) (Alert.is_active alert);
     Alert.triggered_at := given (triggered_at updates) (Alert.triggered_at alert);
     Alert.metadata := given (metadata updates) (Alert.metadata alert);
     Alert.created_at := given (created_at updates) (Alert.created_at alert);
     Alert.updated_at := given (updated_at updates) (Alert.updated_at alert) |}.

Definition setAlerts (l : list Alert.t) (state : AppState) : AppState :=
  {| alerts := l; profile := profile state |}.

Definition setProfile (p : option Profile.t) (state : AppState) : AppState :=
  {| alerts := alerts state; profile := p |}.

Definition addAlert (alert : Alert.t) (state : AppState) : AppState :=
  {| alerts := alert :: alerts state; profile := profile state |}.

Definition updateAlert (id : string) (updates : Updates) (state : AppState)
  : AppState :=
  {| alerts :=
       map (fun alert =>
              if String.eqb (Alert.id alert) id then spread alert updates
              else alert)
           (alerts state);
     profile := profile state |}.

Definition removeAlert (id : string) (state : AppState) : AppState :=
  {| alerts :=
       List.filter (fun alert => negb (String.eqb (Alert.id alert) id))
                   (alerts state);
     profile := profile state |}.

(** The object [{ is_active: b }]. *)
Definition only_is_active (b : bool) : Updates :=
  {| id := None; user_id := None; title := None; asset_type := None;
     symbol := None; condition_type := None; condition_value := None;
     notification_email := None; notification_telegram := None;
     is_active := Some b; triggered_at := None; metadata := None;
     created_at := None; updated_at := None |}.

End useStore.

(** ** The dashboard screen: the counts shown over the store's alerts *)
Module DashboardScreen.

Record ByAssetType : Type := { crypto : Z; stock : Z; forex : Z }.
Record ByCondition : Type := { price : Z; rsi : Z }.
Record ByNotification : Type := { email : Z; telegram : Z; both : Z }.

Record Stats : Type := {
  total : Z;
  active : Z;
  paused : Z;
  byAssetType : ByAssetType;
  byCondition : ByCondition;
  byNotification : ByNotification
}.

(** [alerts.filter(p).length] *)
Definition count (p : Alert.t -> bool) (alerts : list Alert.t) : Z :=
  Z.of_nat (length (List.filter p alerts)).

Definition calculateStats (alerts : list Alert.t) : Stats :=
  let total := Z.of_nat (length alerts) in
  let active := count Alert.is_active alerts in
  let paused := (total - active)%Z in
  {| total := total;
     active := active;
     paused := paused;
     byAssetType :=
       {| crypto := count (fun a => String.eqb (Alert.asset_type a) "crypto") alerts;
          stock := count (fun a => String.eqb (Alert.asset_type a) "stock") alerts;
          forex := count (fun a => String.eqb (Alert.asset_type a) "forex") alerts |};
     byCondition :=
       {| price := count (fun a => String.prefix "price" (Alert.condition_type a)) alerts;
          rsi := count (fun a => String.prefix "rsi" (Alert.condition_type a)) alerts |};
     byNotification :=
       {| email := count Alert.notification_email alerts;
          telegram := count Alert.notification_telegram alerts;
          both := count (fun a => (Alert.notification_email a
                                   && Alert.notification_telegram a)%bool) alerts |} |}.

End DashboardScreen.

(** ** The audit-trail screen *)
Module AdminScreen.

Record State : Type := {
  auditData : list AuditTrailEntry.t;
  loading : bool;
  refreshing : bool
}.

Definition initial : State :=
  {| auditData := []; loading := true; refreshing := false |}.

Local Abbreviation Async := (Async (R := AuditTrailEntry.t) (L := State)).

Definition setAuditData (d : list AuditTrailEntry.t) : Async unit :=
  modify_local (fun s => {| auditData := d; loading := loading s;
                            refreshing := refreshing s |}).

Definition setLoading (b : bool) : Async unit :=
  modify_local (fun s => {| auditData := auditData s; loading := b;
                            refreshing := refreshing s |}).

Definition setRefreshing (b : bool) : Async unit :=
  modify_local (fun s => {| auditData := auditData s; loading := loading s;
                            refreshing := b |}).

Definition audit_query : supabase.Query :=
  supabase.from "audit_trail"
  |> supabase.select "*"
  |> supabase.order "triggered_at" false
  |> supabase.limit 100.

Definition fetchAuditTrail (isRefresh : bool) : Async unit :=
  try_finally
    (try_catch
       ((if isRefresh then setRefreshing true else ret tt) ;;
        let* r := await_query audit_query in
        match supabase.error r with
        | Some e => throw e
        | None =>
            match supabase.data r with
            | Some rows => setAuditData rows
            | None => ret tt
            end
        end)
       (fun _ =>
          console_error "Error fetching audit trail:" ;;
          RNAlert "Error" "Failed to load audit trail" []))
    (setLoading false ;; setRefreshing false).

(** [profile?.is_admin] *)
Definition is_admin (profile : option Profile.t) : bool :=
  match profile with
  | Some p => Profile.is_admin p
  | None => false
  end.

(** [useEffect(() => { ... }, [profile])] *)
Definition useEffect_profile (profile : option Profile.t) : Async unit :=
  if is_admin profile then fetchAuditTrail false else setLoading false.

Definition onRefresh : Async unit := fetchAuditTrail true.

(** What the component returns: the three early returns and the list. *)
Inductive View : Type :=
| AccessDenied
| Loading
| AuditList (entries : list AuditTrailEntry.t) (refreshing : bool).

Definition render (profile : option Profile.t) (s : State) : View :=
  if negb (is_admin profile) then AccessDenied
  else if loading s then Loading
  else AuditList (auditData s) (refreshing s).

(** The only handler the screen binds is the list's pull-to-refresh; a
    view without the list offers nothing to press. *)
Definition pull_to_refresh (profile : option Profile.t) : Async unit :=
  fun w =>
    match render profile (local w) with
    | AuditList _ _ => onRefresh w
    | AccessDenied | Loading => ret tt w
    end.

(** A session of the screen under one profile: the mount effect, then
    any number of refresh gestures. *)
Fixpoint session (profile : option Profile.t) (gestures : nat) : Async unit :=
  match gestures with
  | O => useEffect_profile profile
  | S n => session profile n ;; pull_to_refresh profile
  end.

End AdminScreen.

(** The requests of a trace, oldest first. *)
Fixpoint requests (t : list Event) : list supabase.Query :=
  match t with
  | EvRequest q :: rest => q :: requests rest
  | _ :: rest => requests rest
  | [] => []
  end.

(** The dialogs of a trace as (title, message), oldest first. *)
Fixpoint dialogs (t : list Event) : list (string * string) :=
  match t with
  | EvDialog title message _ :: rest => (title, message) :: dialogs rest
  | _ :: rest => dialogs rest
  | [] => []
  end.

(** The lists handed to [setAlerts], oldest first. *)
Fixpoint displayed (t : list Event) : list (list Alert.t) :=
  match t with
  | EvSetAlerts l :: rest => l :: displayed rest
  | _ :: rest => displayed rest
  | [] => []
  end.

(** The AsyncStorage calls of a trace, oldest first. *)
Fixpoint storage_trace (t : list Event) : list StorageCall :=
  match t with
  | EvStorage c :: rest => c :: storage_trace rest
  | _ :: rest => storage_trace rest
  | [] => []
  end.

(** ** The create-alert form ([components/alerts/CreateAlertModal.tsx]) *)
Module CreateAlertModal.

Inductive AlertType : Type := threshold | cross.
Inductive SignalType : Type := price | rsi.
Inductive AssetType : Type := crypto | stock | forex.

Definition SignalType_text (s : SignalType) : string :=
  match s with price => "price" | rsi => "rsi" end.

Definition AssetType_text (a : AssetType) : string :=
  match a with crypto => "crypto" | stock => "stock" | forex => "forex" end.

Record State : Type := {
  assetType : AssetType;
  symbol : string;
  alertType : AlertType;
  signalType : SignalType;
  operator : string;
  conditionValue : string;
  timeframe : string;
  notificationEmail : bool;
  notificationTelegram : bool;
  loading : bool
}.

Definition initial : State :=
  {| assetType := crypto; symbol := ""; alertType := threshold;
     signalType := price; operator := "above"; conditionValue := "";
     timeframe := "15m"; notificationEmail := true;
     notificationTelegram := false; loading := false |}.

Record OperatorOption : Type := {
  value : string;
  label : string;
  icon : string
}.

(** Get operators based on alert type *)
Definition getOperators (s : State) : list OperatorOption :=
  match alertType s with
  | cross =>
      [ {| value := "cross_above"; label := "Crosses Above"; icon := "↗" |};
        {| value := "cross_below"; label := "Crosses Below"; icon := "↘" |} ]
  | threshold =>
      [ {| value := "above"; label := "Is Above"; icon := "≥" |};
        {| value := "below"; label := "Is Below"; icon := "≤" |} ]
  end.

(** Map frontend to backend condition_type *)
Definition getConditionType (s : State) : string :=
  match alertType s with
  | cross =>
      let op := replace "cross_" "" (operator s) in
      SignalType_text (signalType s) ++ "_cross_" ++ op
  | threshold =>
      SignalType_text (signalType s) ++ "_" ++ operator s
  end.

(** [typeMap[conditionType] || `${symbolName} Alert`] *)
Definition generateTitle (s : State) : string :=
  let symbolName := trim (toUpperCase (symbol s)) in
  let conditionType := getConditionType s in
  let value := conditionValue s in
  if String.eqb conditionType "price_above"
  then symbolName ++ " price above $" ++ value
  else if String.eqb conditionType "price_below"
  then symbolName ++ " price below $" ++ value
  else if String.eqb conditionType "price_cross_above"
  then symbolName ++ " price crosses above $" ++ value
  else if String.eqb conditionType "price_cross_below"
  then symbolName ++ " price crosses below $" ++ value
  else if String.eqb conditionType "rsi_above"
  then symbolName ++ " RSI above " ++ value
  else if String.eqb conditionType "rsi_below"
  then symbolName ++ " RSI below " ++ value
  else if String.eqb conditionType "rsi_cross_above"
  then symbolName ++ " RSI crosses above " ++ value
  else if String.eqb conditionType "rsi_cross_below"
  then symbolName ++ " RSI crosses below " ++ value
  else symbolName ++ " Alert".

Definition resetForm (s : State) : State :=
  {| assetType := assetType s; symbol := ""; alertType := threshold;
     signalType := price; operator := "above"; conditionValue := "";
     timeframe := "15m"; notificationEmail := true;
     notificationTelegram := false; loading := loading s |}.

Definition with_loading (b : bool) (s : State) : State :=
  {| assetType := assetType s; symbol := symbol s; alertType := alertType s;
     signalType := signalType s; operator := operator s;
     conditionValue := conditionValue s; timeframe := timeframe s;
     notificationEmail := notificationEmail s;
     notificationTelegram := notificationTelegram s; loading := b |}.

(** [error.message || 'Failed to create alert'] *)
Definition message_or (e : JSError) (fallback : string) : string :=
  match e with
  | PostgrestError (String c m) => String c m
  | _ => fallback
  end.

Section CreateAlertModal.
(** [parseFloat] of the language runtime. *)
Variable parseFloat : string -> number.

Local Abbreviation Async := (Async (R := Alert.t) (L := State)).

(** The verdict of [validateForm] and the message of the dialog it shows
    when the verdict is [false]. *)
Definition validation (s : State) : option string :=
  if String.eqb (trim (symbol s)) "" then Some "Please enter a symbol"
  else if String.eqb (trim (conditionValue s)) ""
  then Some "Please enter a threshold value"
  else
    let value := parseFloat (conditionValue s) in
    if PrimFloat.is_nan value then Some "Please enter a valid number"
    else
      match signalType s with
      | rsi =>
          if (PrimFloat.ltb value 0 || PrimFloat.ltb 100 value)%bool
          then Some "RSI must be between 0 and 100"
          else None
      | price =>
          if PrimFloat.leb value 0
          then Some "Price must be greater than 0"
          else None
      end.

Definition validateForm : Async bool :=
  fun w =>
    match validation (local w) with
    | Some message => (RNAlert "Error" message [] ;; ret false) w
    | None => ret true w
    end.

Definition new_alert (user : option User.t) (s : State) : NewAlert.t :=
  {| NewAlert.user_id := option_map User.id user;
     NewAlert.title := generateTitle s;
     NewAlert.asset_type := AssetType_text (assetType s);
     NewAlert.symbol := trim (toUpperCase (symbol s));
     NewAlert.condition_type := getConditionType s;
     NewAlert.condition_value := parseFloat (conditionValue s);
     NewAlert.notification_email := notificationEmail s;
     NewAlert.notification_telegram := notificationTelegram s;
     NewAlert.is_active := true;
     NewAlert.metadata := {| Metadata.timeframe := timeframe s |} |}.

Definition insert_query (user : option User.t) (s : State) : supabase.Query :=
  supabase.from "alerts"
  |> supabase.insert (new_alert user s)
  |> supabase.select "*"
  |> supabase.single.

Definition handleSubmit (user : option User.t) : Async unit :=
  let* valid := validateForm in
  if negb valid then ret tt
  else
    modify_local (with_loading true) ;;
    try_finally
      (try_catch
         (fun w =>
            (let* r := await_query (insert_query user (local w)) in
             match supabase.error r with
             | Some e => throw e
             | None =>
                 RNAlert "Success" "Alert created successfully!" [] ;;
                 modify_local resetForm ;;
                 log (EvProp "onSuccess") ;;
                 log (EvProp "onClose")
             end) w)
         (fun e =>
            console_error "Error creating alert:" ;;
            RNAlert "Error" (message_or e "Failed to create alert") []))
      (modify_local (with_loading false)).

Definition handleClose : Async unit :=
  modify_local resetForm ;; log (EvProp "onClose").

(** What the user can do with the rendered form. *)
Inductive Action : Type :=
| PressAssetType (a : AssetType)
| ChangeSymbol (text : string)
| PressThreshold
| PressCross
| PressSignalType (s : SignalType)
| PressOperator (n : nat)            (* the n-th card of getOperators() *)
| ChangeConditionValue (text : string)
| PressTimeframe (t : string)
| ToggleEmail
| ToggleTelegram
| PressCreate
| PressCancel.

Definition edit (a : Action) (s : State) : State :=
  match a with
  | PressAssetType v =>
      {| assetType := v; symbol := symbol s; alertType := alertType s;
         signalType := signalType s; operator := operator s;
         conditionValue := conditionValue s; timeframe := timeframe s;
         notificationEmail := notificationEmail s;
         notificationTelegram := notificationTelegram s; loading := loading s |}
  | ChangeSymbol text =>
      {| assetType := assetType s; symbol := toUpperCase text;
         alertType := alertType s;
         signalType := signalType s; operator := operator s;
         conditionValue := conditionValue s; timeframe := timeframe s;
         notificationEmail := notificationEmail s;
         notificationTelegram := notificationTelegram s; loading := loading s |}
  | PressThreshold =>
      {| assetType := assetType s; symbol := symbol s; alertType := threshold;
         signalType := signalType s; operator := "above";
         conditionValue := conditionValue s; timeframe := timeframe s;
         notificationEmail := notificationEmail s;
         notificationTelegram := notificationTelegram s; loading := loading s |}
  | PressCross =>
      {| assetType := assetType s; symbol := symbol s; alertType := cross;
         signalType := signalType s; operator := "cross_above";
         conditionValue := conditionValue s; timeframe := timeframe s;
         notificationEmail := notificationEmail s;
         notificationTelegram := notificationTelegram s; loading := loading s |}
  | PressSignalType v =>
      {| assetType := assetType s; symbol := symbol s; alertType := alertType s;
         signalType := v; operator := operator s;
         conditionValue := conditionValue s; timeframe := timeframe s;
         notificationEmail := notificationEmail s;
         notificationTelegram := notificationTelegram s; loading := loading s |}
  | PressOperator n =>
      match nth_error (getOperators s) n with
      | Some op =>
          {| assetType := assetType s; symbol := symbol s;
             alertType := alertType s;
             signalType := signalType s; operator := value op;
             conditionValue := conditionValue s; timeframe := timeframe s;
             notificationEmail := notificationEmail s;
             notificationTelegram := notificationTelegram s;
             loading := loading s |}
      | None => s
      end
  | ChangeConditionValue text =>
      {| assetType := assetType s; symbol := symbol s; alertType := alertType s;
         signalType := signalType s; operator := operator s;
         conditionValue := text; timeframe := timeframe s;
         notificationEmail := notificationEmail s;
         notificationTelegram := notificationTelegram s; loading := loading s |}
  | PressTimeframe t =>
      {| assetType := assetType s; symbol := symbol s; alertType := alertType s;
         signalType := signalType s; operator := operator s;
         conditionValue := conditionValue s; timeframe := t;
         notificationEmail := notificationEmail s;
         notificationTelegram := notificationTelegram s; loading := loading s |}
  | ToggleEmail =>
      {| assetType := assetType s; symbol := symbol s; alertType := alertType s;
         signalType := signalType s; operator := operator s;
         conditionValue := conditionValue s; timeframe := timeframe s;
         notificationEmail := negb (notificationEmail s);
         notificationTelegram := notificationTelegram s; loading := loading s |}
  | ToggleTelegram =>
      {| assetType := assetType s; symbol := symbol s; alertType := alertType s;
         signalType := signalType s; operator := operator s;
         conditionValue := conditionValue s; timeframe := timeframe s;
         notificationEmail := notificationEmail s;
         notificationTelegram := negb (notificationTelegram s);
         loading := loading s |}
  | PressCreate | PressCancel => s
  end.

Definition dispatch (user : option User.t) (a : Action) : Async unit :=
  match a with
  | PressCreate => handleSubmit user
  | PressCancel => handleClose
  | _ => modify_local (edit a)
  end.

Fixpoint run (user : option User.t) (actions : list Action) : Async unit :=
  match actions with
  | [] => ret tt
  | a :: rest => dispatch user a ;; run user rest
  end.

End CreateAlertModal.
End CreateAlertModal.

(** The rows sent to the backend by the inserts of a trace. *)
Fixpoint submitted (t : list Event) : list NewAlert.t :=
  match t with
  | EvRequest q :: rest =>
      match supabase.verb q with
      | Some (supabase.Insert row) => row :: submitted rest
      | _ => submitted rest
      end
  | _ :: rest => submitted rest
  | [] => []
  end.

(** ** Sample data

    A concrete runtime and concrete worlds on which the definitions above
    are run: a JSON writer for alert lists with a reader that inverts it
    on a given finite family of lists, a [parseFloat] for plain decimal
    literals, two alerts, and worlds built from them. *)
Module Sample.
Local Open Scope string_scope.

Definition dquote : string := String (ascii_of_nat 34) EmptyString.
Definition backslash : string := String (ascii_of_nat 92) EmptyString.

Fixpoint escape (s : string) : string :=
  match s with
  | String c s' =>
      (if Nat.eqb (nat_of_ascii c) 34 then backslash ++ dquote
       else if Nat.eqb (nat_of_ascii c) 92 then backslash ++ backslash
       else String c EmptyString) ++ escape s'
  | EmptyString => EmptyString
  end.

Definition json_string (s : string) : string := dquote ++ escape s ++ dquote.

Definition json_bool (b : bool) : string := if b then "true" else "false".

Definition json_nullable (o : option string) : string :=
  match o with
  | Some s => json_string s
  | None => "null"
  end.

Definition decimal (n : N) : string := NilZero.string_of_uint (N.to_uint n).

Fixpoint strip_zeros (s : string) : string :=
  match s with
  | String c s' =>
      match strip_zeros s' with
      | EmptyString =>
          if (Nat.eqb (nat_of_ascii c) 48 || Nat.eqb (nat_of_ascii c) 46)%bool
          then EmptyString else String c EmptyString
      | t => String c t
      end
  | EmptyString => EmptyString
  end.

Fixpoint zeros (n : nat) : string :=
  match n with
  | O => EmptyString
  | S n' => String "0" (zeros n')
  end.

(** The exact decimal expansion of a finite number; NaN and the
    infinities are written [null], as [JSON.stringify] does. *)
Definition json_number (x : number) : string :=
  match Prim2SF x with
  | S754_zero _ => "0"
  | S754_infinity _ | S754_nan => "null"
  | S754_finite sign m e =>
      (if sign then "-" else "") ++
      (if (0 <=? e)%Z then decimal (N.pos m * 2 ^ Z.to_N e)
       else
         let k := Z.to_nat (- e) in
         let digits := decimal (N.pos m * 5 ^ N.of_nat k) in
         let padded := zeros (S k - String.length digits) ++ digits in
         let whole := String.length padded - k in
         String.substring 0 whole padded ++
         strip_zeros ("." ++ String.substring whole k padded))
  end.

Definition member (key text : string) : string :=
  dquote ++ key ++ dquote ++ ":" ++ text.

Definition json_alert (a : Alert.t) : string :=
  "{" ++ String.concat ","
    [ member "id" (json_string (Alert.id a));
      member "user_id" (json_string (Alert.user_id a));
      member "title" (json_string (Alert.title a));
      member "asset_type" (json_string (Alert.asset_type a));
      member "symbol" (json_string (Alert.symbol a));
      member "condition_type" (json_string (Alert.condition_type a));
      member "condition_value" (json_number (Alert.condition_value a));
      member "notification_email" (json_bool (Alert.notification_email a));
      member "notification_telegram" (json_bool (Alert.notification_telegram a));
      member "is_active" (json_bool (Alert.is_active a));
      member "triggered_at" (json_nullable (Alert.triggered_at a));
      member "metadata"
        ("{" ++ member "timeframe"
                  (json_string (Metadata.timeframe (Alert.metadata a))) ++ "}");
      member "created_at" (json_string (Alert.created_at a));
      member "updated_at" (json_string (Alert.updated_at a)) ]
  ++ "}".

Definition json_alerts (l : list Alert.t) : string :=
  "[" ++ String.concat "," (map json_alert l) ++ "]".

(** A reader for the texts written from the lists of [family]. *)
Definition read_alerts (family : list (list Alert.t)) (text : string)
  : JSON.Parsed (list Alert.t) :=
  if String.eqb text "null" then JSON.Null
  else match List.find (fun l => String.eqb (json_alerts l) text) family with
       | Some l => JSON.Value l
       | None => JSON.Malformed
       end.

Definition codec (family : list (list Alert.t)) : JSON.Codec (list Alert.t) :=
  {| JSON.stringify := fun l => Some (json_alerts l);
     JSON.parse := read_alerts family |}.

Definition digit (c : ascii) : option Z :=
  let n := nat_of_ascii c in
  if (Nat.leb 48 n && Nat.leb n 57)%bool then Some (Z.of_nat (n - 48)) else None.

(** Reads the leading digits of [s] onto [acc]: the number read, how many
    digits it took, and the rest of the text. *)
Fixpoint digits (s : string) (acc : Z) (count : nat) : Z * nat * string :=
  match s with
  | String c s' =>
      match digit c with
      | Some d => digits s' (10 * acc + d)%Z (S count)
      | None => (acc, count, s)
      end
  | EmptyString => (acc, count, s)
  end.

Definition of_Z (z : Z) : number := PrimFloat.of_uint63 (Uint63.of_Z z).

(** [parseFloat] on the decimal literals [sign digits . digits] (exact up
    to fifteen significant digits); NaN when no digit starts the text. *)
Definition parseFloat (s : string) : number :=
  let s := trimStart s in
  let '(negative, s) :=
    match s with
    | String "-" r => (true, r)
    | String "+" r => (false, r)
    | _ => (false, s)
    end in
  let '(i, ni, rest) := digits s 0%Z 0 in
  let '(m, nf, _) :=
    match rest with
    | String "." r => digits r i 0
    | _ => (i, 0, rest)
    end in
  if Nat.eqb (ni + nf) 0 then PrimFloat.nan
  else
    let v := PrimFloat.div (of_Z m) (of_Z (10 ^ Z.of_nat nf)) in
    if negative then PrimFloat.opp v else v.

Definition btc : Alert.t :=
  {| Alert.id := "a1"; Alert.user_id := "u1";
     Alert.title := "BTC price above $50000";
     Alert.asset_type := "crypto"; Alert.symbol := "BTC";
     Alert.condition_type := "price_above";
     Alert.condition_value := 50000%float;
     Alert.notification_email := true;
     Alert.notification_telegram := false;
     Alert.is_active := true; Alert.triggered_at := None;
     Alert.metadata := {| Metadata.timeframe := "15m" |};
     Alert.created_at := "2025-01-02T10:00:00Z";
     Alert.updated_at := "2025-01-02T10:00:00Z" |}.

Definition eth : Alert.t :=
  {| Alert.id := "a2"; Alert.user_id := "u1";
     Alert.title := "ETH RSI below 30";
     Alert.asset_type := "crypto"; Alert.symbol := "ETH";
     Alert.condition_type := "rsi_below";
     Alert.condition_value := 30%float;
     Alert.notification_email := true;
     Alert.notification_telegram := true;
     Alert.is_active := false; Alert.triggered_at := None;
     Alert.metadata := {| Metadata.timeframe := "1h" |};
     Alert.created_at := "2025-01-01T09:00:00Z";
     Alert.updated_at := "2025-01-01T09:00:00Z" |}.

(** The lists the sample reader knows. *)
Definition family : list (list Alert.t) :=
  [ [btc; eth]; [btc]; [eth];
    [Alert.with_is_active false btc; eth]; [Alert.with_is_active false btc] ].

Definition alerts_codec : JSON.Codec (list Alert.t) := codec family.

Definition u1 : User.t := {| User.id := "u1" |}.

Definition offline {R : Type} : nat -> supabase.Query -> supabase.Response R :=
  fun _ _ => {| supabase.data := None;
                supabase.error := Some (PostgrestError "Network request failed") |}.

Definition serving {R : Type} (rows : list R)
  : nat -> supabase.Query -> supabase.Response R :=
  fun _ _ => {| supabase.data := Some rows; supabase.error := None |}.

Definition never : nat -> bool := fun _ => false.

Definition world {R L : Type} (items : gmap string string)
    (rejects : nat -> bool)
    (answers : nat -> supabase.Query -> supabase.Response R)
    (alerts : list Alert.t) (l : L) : World R L :=
  {| storage_items := items; storage_rejects := rejects; storage_calls := 0;
     backend := answers; backend_calls := 0; store_alerts := alerts;
     store_profile := None; subscriptions := []; trace := []; local := l |}.

(** AsyncStorage holding the text of [l] under ["alerts"]. *)
Definition cached (l : list Alert.t) : gmap string string :=
  {[ "alerts" := json_alerts l ]}.

(** The alerts screen showing both alerts, the backend unreachable. *)
Definition offline_screen : World Alert.t AlertsScreen.State :=
  world (cached [btc; eth]) never offline [btc; eth] AlertsScreen.initial.


(** A cold start: nothing displayed yet, one alert cached, the backend
    unreachable. *)
Definition cold_start_offline : World Alert.t AlertsScreen.State :=
  world (cached [btc]) never offline [] AlertsScreen.initial.

(** A cold start with the backend serving two alerts. *)
Definition cold_start_online : World Alert.t AlertsScreen.State :=
  world (cached [btc]) never (serving [btc; eth]) [] AlertsScreen.initial.

(** A storage that rejects every call. *)
Definition storage_down : World Alert.t AlertsScreen.State :=
  world (cached [btc]) (fun _ => true) offline [btc] AlertsScreen.initial.

Definition audit_screen : World AuditTrailEntry.t AdminScreen.State :=
  world ∅ never (serving []) [] AdminScreen.initial.

(** The form as opened, then filled by the given actions. *)
Definition form (actions : list CreateAlertModal.Action)
  : World Alert.t CreateAlertModal.State :=
  world ∅ never (serving [])
        [] (fold_left (fun s a => CreateAlertModal.edit a s) actions
                      CreateAlertModal.initial).

(** The alerts screen showing both alerts, the backend accepting every
    write and serving the second alert alone. *)
Definition online_screen : World Alert.t AlertsScreen.State :=
  world (cached [btc; eth]) never
               (serving [eth]) [btc; eth]
               AlertsScreen.initial.

(** The form filled for a price alert on BTC above 0.5. *)
Definition valid_form : World Alert.t CreateAlertModal.State :=
  form [CreateAlertModal.ChangeSymbol "btc";
               CreateAlertModal.ChangeConditionValue "0.5"].

(** The form filled for an RSI alert on ETH below 30. *)
Definition rsi_form : CreateAlertModal.State :=
  local (form [CreateAlertModal.ChangeSymbol " eth";
                      CreateAlertModal.PressSignalType CreateAlertModal.rsi;
                      CreateAlertModal.PressOperator 1;
                      CreateAlertModal.ChangeConditionValue "30"]).

Definition admin : Profile.t :=
  {| Profile.id := "u1"; Profile.email := "admin@example.com";
     Profile.full_name := None; Profile.is_admin := true;
     Profile.email_notifications := true;
     Profile.telegram_notifications := false;
     Profile.telegram_chat_id := None; Profile.push_token := None;
     Profile.created_at := "2025-01-01T09:00:00Z" |}.



(** A cold start with the backend serving two alerts and a storage that
    accepts the read and rejects the write that follows it. *)
Definition write_back_rejected : World Alert.t AlertsScreen.State :=
  world (cached [btc]) (fun n => Nat.eqb n 1) (serving [btc; eth]) []
        AlertsScreen.initial.

End Sample.


(** ** Vocabulary of the properties *)

Section vocabulary.
Context {R L : Type}.

(** What a cache operation leaves alone: everything but the stored
    items, the count of storage calls and the trace. *)
Definition same_app_state (w w' : World R L) : Prop :=
  store_alerts w' = store_alerts w /\ store_profile w' = store_profile w /\
  subscriptions w' = subscriptions w /\ local w' = local w /\
  backend_calls w' = backend_calls w /\ backend w' = backend w /\
  storage_rejects w' = storage_rejects w.

(** Is the next storage call of [w] rejected. *)
Definition rejected (w : World R L) : bool :=
  storage_rejects w (storage_calls w).

(** No storage call made from [w] on is rejected. *)
Definition storage_sound (w : World R L) : Prop :=
  forall n, storage_calls w <= n -> storage_rejects w n = false.

(** The answer to the next request of [w], should it be [q]. *)
Definition next_response (w : World R L) (q : supabase.Query)
  : supabase.Response R :=
  backend w (backend_calls w) q.

Context {V : Type} `{JSON.Codec V}.

(** [JSON.parse(JSON.stringify(value))] *)
Definition json_roundtrip (value : V) : option V :=
  match JSON.stringify value with
  | Some text => parsed_value (JSON.parse text)
  | None => None
  end.

(** [JSON.stringify] accepts the value; the text it gives is never the
    empty string. *)
Definition serializable (value : V) : Prop :=
  exists text, JSON.stringify value = Some text /\ text <> "".

(** The trace [cache.set(key, value)] leaves in [w]. *)
Definition set_events (key : string) (value : V) (w : World R L) : list Event :=
  match JSON.stringify value with
  | Some text =>
      EvStorage (SetItem key text)
      :: (if rejected w then [EvConsoleError "Error setting cache:"] else [])
  | None => [EvConsoleError "Error setting cache:"]
  end.

(** What [cache.get(key)] returns in [w]. *)
Definition cache_read (key : string) (w : World R L) : option V :=
  match fst (cache.get key w) with
  | Normal value => value
  | Throw _ => None
  end.

End vocabulary.

(** What a run that only shows data leaves alone. *)
Definition same_surroundings {R L : Type} (w w' : World R L) : Prop :=
  backend w' = backend w /\ storage_rejects w' = storage_rejects w /\
  subscriptions w' = subscriptions w /\ store_profile w' = store_profile w.

(** The storage accepted the last call made before [w']. *)
Definition last_call_accepted {R L : Type} (w' : World R L) : Prop :=
  storage_rejects w' (pred (storage_calls w')) = false.

(** The backend never returns more rows than a query's limit. *)
Definition honours_limit {R L : Type} (w : World R L) : Prop :=
  forall (n : nat) (q : supabase.Query) (k : nat) (rows : list R),
    supabase.row_limit q = Some k ->
    supabase.data (backend w n q) = Some rows ->
    length rows <= k.

(** The condition under which the specification says the create-alert
    form is rejected. *)
Definition validation_fails (parseFloat : string -> number)
    (s : CreateAlertModal.State) : Prop :=
  let value := parseFloat (CreateAlertModal.conditionValue s) in
  trim (CreateAlertModal.symbol s) = "" \/
  trim (CreateAlertModal.conditionValue s) = "" \/
  PrimFloat.is_nan value = true \/
  (CreateAlertModal.signalType s = CreateAlertModal.rsi /\
   (PrimFloat.ltb value 0 = true \/ PrimFloat.ltb 100 value = true)) \/
  (CreateAlertModal.signalType s = CreateAlertModal.price /\
   PrimFloat.leb value 0 = true).

(** The operator held by the form is one of the cards it renders. *)
Definition operator_rendered (s : CreateAlertModal.State) : Prop :=
  In (CreateAlertModal.operator s)
     (map CreateAlertModal.value (CreateAlertModal.getOperators s)).

Section alerts_vocabulary.
Context `{JSON.Codec (list Alert.t)}.

(** The list that the cache-read step of [fetchAlerts] hands to
    [setAlerts]: the cached value when it is neither null nor empty. *)
Definition shown_from_cache (isRefresh : bool)
    (w : World Alert.t AlertsScreen.State) : list (list Alert.t) :=
  if isRefresh then []
  else match cache_read "alerts" w with
       | Some l => if Nat.ltb 0 (length l) then [l] else []
       | None => []
       end.


End alerts_vocabulary.

(** Every field but [is_active] agrees. *)
Definition same_but_is_active (a a' : Alert.t) : Prop :=
  Alert.id a' = Alert.id a /\ Alert.user_id a' = Alert.user_id a /\
  Alert.title a' = Alert.title a /\ Alert.asset_type a' = Alert.asset_type a /\
  Alert.symbol a' = Alert.symbol a /\
  Alert.condition_type a' = Alert.condition_type a /\
  Alert.condition_value a' = Alert.condition_value a /\
  Alert.notification_email a' = Alert.notification_email a /\
  Alert.notification_telegram a' = Alert.notification_telegram a /\
  Alert.triggered_at a' = Alert.triggered_at a /\
  Alert.metadata a' = Alert.metadata a /\
  Alert.created_at a' = Alert.created_at a /\
  Alert.updated_at a' = Alert.updated_at a.

(** No two alerts of the list share an id (the id is the table's key). *)
Definition unique_ids (alerts : list Alert.t) : Prop :=
  List.NoDup (map Alert.id alerts).

(** The storage reads of a list of storage calls. *)
Definition reads (calls : list StorageCall) : list StorageCall :=
  List.filter (fun c => match c with GetItem _ => true | _ => false end) calls.

Section cache_as_map.
Context {V : Type} `{JSON.Codec V}.

(** The cache read as a finite map from keys to texts: what one operation
    does to the map when the storage accepts it. *)
Definition apply_op (o : cache.Op V) (m : gmap string string)
  : gmap string string :=
  match o with
  | cache.OpSet key value =>
      match JSON.stringify value with
      | Some text => <[key:=text]> m
      | None => m
      end
  | cache.OpGet _ => m
  | cache.OpRemove key => delete key m
  | cache.OpClear => ∅
  end.

Definition apply_ops (ops : list (cache.Op V)) (m : gmap string string)
  : gmap string string :=
  fold_left (fun m o => apply_op o m) ops m.

End cache_as_map.

(** * Properties *)

(** Reduces the projections of a world written out as a record. *)
Ltac world_simpl :=
  cbn [storage_items storage_rejects storage_calls backend backend_calls
       store_alerts store_profile subscriptions trace local fst snd
       requests dialogs displayed storage_trace app] in *.

(** ** Traces *)

Lemma requests_app (a b : list Event) : requests (a ++ b) = requests a ++ requests b.
Proof.
  induction a as [|e a IH]; [reflexivity|].
  destruct e; simpl; rewrite IH; reflexivity.
Qed.

Lemma dialogs_app (a b : list Event) : dialogs (a ++ b) = dialogs a ++ dialogs b.
Proof.
  induction a as [|e a IH]; [reflexivity|].
  destruct e; simpl; rewrite IH; reflexivity.
Qed.

Lemma displayed_app (a b : list Event) :
  displayed (a ++ b) = displayed a ++ displayed b.
Proof.
  induction a as [|e a IH]; [reflexivity|].
  destruct e; simpl; rewrite IH; reflexivity.
Qed.

Lemma storage_trace_app (a b : list Event) :
  storage_trace (a ++ b) = storage_trace a ++ storage_trace b.
Proof.
  induction a as [|e a IH]; [reflexivity|].
  destruct e; simpl; rewrite IH; reflexivity.
Qed.

Lemma submitted_app (a b : list Event) :
  submitted (a ++ b) = submitted a ++ submitted b.
Proof.
  induction a as [|e a IH]; [reflexivity|].
  destruct e as [| q | | | |]; simpl; try (rewrite IH; reflexivity).
  destruct (supabase.verb q) as [[]|]; simpl; rewrite IH; reflexivity.
Qed.

Create Rewrite HintDb trace_db.
#[global] Hint Rewrite requests_app dialogs_app displayed_app
  storage_trace_app submitted_app : trace_db.

(** Splits the projections of a trace over [++] and evaluates them. *)
Ltac trace_simpl :=
  autorewrite with trace_db; world_simpl; rewrite ?app_nil_r.

(** ** The cache *)
Section cache_facts.
Context {R L V : Type} `{JSON.Codec V}.

Local Abbreviation Async := (Async (R := R) (L := L)).

Lemma same_app_state_refl (w : World R L) : same_app_state w w.
Proof. repeat split. Qed.

Lemma same_app_state_trans (w1 w2 w3 : World R L) :
  same_app_state w1 w2 -> same_app_state w2 w3 -> same_app_state w1 w3.
Proof.
  unfold same_app_state. intros (a1 & a2 & a3 & a4 & a5 & a6 & a7)
    (b1 & b2 & b3 & b4 & b5 & b6 & b7).
  repeat split; congruence.
Qed.

Lemma bind_run {A B : Type} (m : Async A) (k : A -> Async B)
    (w w' : World R L) (a : A) :
  m w = (Normal a, w') -> bind m k w = k a w'.
Proof. intros E. unfold bind. rewrite E. reflexivity. Qed.

Lemma set_run (key : string) (value : V) (w : World R L) :
  exists w',
    cache.set key value w = (Normal tt, w') /\ same_app_state w w' /\
    storage_items w' =
      match JSON.stringify value with
      | Some text => if rejected w then storage_items w
                     else <[key:=text]> (storage_items w)
      | None => storage_items w
      end /\
    storage_calls w' =
      match JSON.stringify value with
      | Some _ => S (storage_calls w)
      | None => storage_calls w
      end /\
    trace w' = trace w ++ set_events key value w.
Proof.
  unfold cache.set, try_catch, AsyncStorage.setItem, AsyncStorage.call,
    console_error, log, throw, set_events, rejected, same_app_state.
  destruct (JSON.stringify value) as [text|]; simpl;
    [destruct (storage_rejects w (storage_calls w)); simpl|];
    eexists; (split; [reflexivity|]); simpl; rewrite <- ?app_assoc;
    repeat split; reflexivity.
Qed.

Lemma set_events_quiet (key : string) (value : V) (w : World R L) :
  requests (set_events key value w) = [] /\
  dialogs (set_events key value w) = [] /\
  displayed (set_events key value w) = [] /\
  storage_trace (set_events key value w) =
    match JSON.stringify value with
    | Some text => [SetItem key text]
    | None => []
    end.
Proof.
  unfold set_events.
  destruct (JSON.stringify value); [destruct (rejected w)|];
    repeat split; reflexivity.
Qed.

(** What [cache.get(key)] evaluates to in [w]: it returns normally, makes
    one storage call and logs at most an error after it; the value is
    [null] on a rejected read, a missing item, the empty text or text
    that does not parse. *)
Lemma get_run (key : string) (w : World R L) :
  exists w' logged,
    cache.get key w = (Normal (cache_read key w), w') /\
    same_app_state w w' /\ storage_items w' = storage_items w /\
    storage_calls w' = S (storage_calls w) /\
    trace w' = trace w ++ EvStorage (GetItem key) :: logged /\
    (logged = [] \/ logged = [EvConsoleError "Error getting cache:"]) /\
    cache_read key w =
      (if rejected w then None
       else match storage_items w !! key with
            | Some text =>
                if String.eqb text "" then None
                else parsed_value (JSON.parse text)
            | None => None
            end).
Proof.
  unfold cache_read, cache.get, try_catch, bind, AsyncStorage.getItem,
    AsyncStorage.call, console_error, log, throw, ret, rejected,
    same_app_state.
  destruct (storage_rejects w (storage_calls w)); world_simpl.
  - do 2 eexists; (split; [reflexivity|]); world_simpl; rewrite <- ?app_assoc;
      repeat split; try reflexivity; auto.
  - destruct (storage_items w !! key) as [text|]; world_simpl.
    + destruct (String.eqb text ""); world_simpl.
      * do 2 eexists; (split; [reflexivity|]); world_simpl;
          rewrite <- ?app_assoc; repeat split; try reflexivity; auto.
      * destruct (JSON.parse text); world_simpl;
          do 2 eexists; (split; [reflexivity|]); world_simpl;
          rewrite <- ?app_assoc; repeat split; try reflexivity; auto.
    + do 2 eexists; (split; [reflexivity|]); world_simpl;
        rewrite <- ?app_assoc; repeat split; try reflexivity; auto.
Qed.

Lemma remove_run (key : string) (w : World R L) :
  exists w',
    cache.remove key w = (Normal tt, w') /\ same_app_state w w' /\
    storage_items w' =
      (if rejected w then storage_items w else delete key (storage_items w)) /\
    storage_calls w' = S (storage_calls w).
Proof.
  unfold cache.remove, try_catch, AsyncStorage.removeItem, AsyncStorage.call,
    console_error, log, rejected, same_app_state.
  destruct (storage_rejects w (storage_calls w)); simpl;
    eexists; (split; [reflexivity|]); simpl; repeat split; reflexivity.
Qed.

Lemma clear_run (w : World R L) :
  exists w',
    cache.clear w = (Normal tt, w') /\ same_app_state w w' /\
    storage_items w' = (if rejected w then storage_items w else ∅) /\
    storage_calls w' = S (storage_calls w).
Proof.
  unfold cache.clear, try_catch, AsyncStorage.clear, AsyncStorage.call,
    console_error, log, rejected, same_app_state.
  destruct (storage_rejects w (storage_calls w)); simpl;
    eexists; (split; [reflexivity|]); simpl; repeat split; reflexivity.
Qed.

(** A sequence of cache operations returns normally; an entry none of
    them touches is kept, and an absent entry none of them sets stays
    absent. *)
Lemma run_ops_run (ops : list (cache.Op V)) (w : World R L) :
  exists w',
    cache.run_ops ops w = (Normal tt, w') /\ same_app_state w w' /\
    storage_calls w <= storage_calls w' /\
    (forall key,
        forallb (fun o => negb (cache.touches key o)) ops = true ->
        storage_items w' !! key = storage_items w !! key) /\
    (forall key,
        forallb (fun o => negb (cache.is_set_of key o)) ops = true ->
        storage_items w !! key = None -> storage_items w' !! key = None).
Proof.
  revert w. induction ops as [|o rest IH]; intros w.
  - exists w. simpl. unfold ret. repeat split; auto.
  - assert (Hop : exists w1,
               cache.run_op o w = (Normal tt, w1) /\ same_app_state w w1 /\
               storage_calls w <= storage_calls w1 /\
               (forall key, cache.touches key o = false ->
                            storage_items w1 !! key = storage_items w !! key) /\
               (forall key, cache.is_set_of key o = false ->
                            storage_items w !! key = None ->
                            storage_items w1 !! key = None)).
    { destruct o as [k v|k|k|]; simpl.
      - destruct (set_run k v w) as (w1 & E & Hs & Hi & Hc & _).
        exists w1. repeat split; try apply Hs; auto.
        + rewrite Hc. destruct (JSON.stringify v); lia.
        + intros key Hk. rewrite Hi.
          destruct (JSON.stringify v); [|reflexivity].
          destruct (rejected w); [reflexivity|].
          apply lookup_insert_ne. intros ->. rewrite String.eqb_refl in Hk.
          discriminate.
        + intros key Hk Hn. rewrite Hi.
          destruct (JSON.stringify v); [|assumption].
          destruct (rejected w); [assumption|].
          rewrite lookup_insert_ne; [assumption|].
          intros ->. rewrite String.eqb_refl in Hk. discriminate.
      - destruct (get_run k w) as (w1 & lg & E & Hs & Hi & Hc & _).
        exists w1. rewrite (bind_run _ _ _ _ _ E). unfold ret.
        repeat split; try apply Hs; auto; try lia.
        + intros key _. rewrite Hi. reflexivity.
        + intros key _ Hn. rewrite Hi. assumption.
      - destruct (remove_run k w) as (w1 & E & Hs & Hi & Hc).
        exists w1. repeat split; try apply Hs; auto; try lia.
        + intros key Hk. rewrite Hi. destruct (rejected w); [reflexivity|].
          apply lookup_delete_ne. intros ->. rewrite String.eqb_refl in Hk.
          discriminate.
        + intros key _ Hn. rewrite Hi. destruct (rejected w); [assumption|].
          destruct (decide (k = key)) as [->|Hne].
          * apply lookup_delete_eq.
          * rewrite lookup_delete_ne; assumption.
      - destruct (clear_run w) as (w1 & E & Hs & Hi & Hc).
        exists w1. repeat split; try apply Hs; auto; try lia.
        intros key _ Hn. rewrite Hi. destruct (rejected w); [assumption|].
        apply lookup_empty. }
    destruct Hop as (w1 & E1 & Hs1 & Hc1 & Hk1 & Hn1).
    destruct (IH w1) as (w2 & E2 & Hs2 & Hc2 & Hk2 & Hn2).
    exists w2. simpl. rewrite (bind_run _ _ _ _ _ E1).
    repeat split; try apply (same_app_state_trans _ _ _ Hs1 Hs2); auto; try lia.
    + intros key Hf. simpl in Hf. apply andb_true_iff in Hf as [Ho Hr].
      rewrite (Hk2 key Hr). apply Hk1. apply negb_true_iff. exact Ho.
    + intros key Hf Hn. simpl in Hf. apply andb_true_iff in Hf as [Ho Hr].
      apply (Hn2 key Hr). apply Hn1; [apply negb_true_iff; exact Ho|exact Hn].
Qed.

(** C8.  For every key and every JSON-serializable value, [cache.get(key)]
    after [cache.set(key, value)] returns the JSON round-trip of the value,
    whatever cache operations run in between as long as none of them
    writes, removes or clears the entry and the storage rejects no call;
    and [cache.get] of a key that is absent and was not set since returns
    [null]. *)
Theorem cache_get_after_set :
  (forall (key : string) (value : V) (between : list (cache.Op V))
          (w : World R L),
      serializable value -> storage_sound w ->
      forallb (fun o => negb (cache.touches key o)) between = true ->
      fst ((cache.set key value ;; cache.run_ops between ;; cache.get key) w)
      = Normal (json_roundtrip value))
  /\
  (forall (key : string) (ops : list (cache.Op V)) (w : World R L),
      storage_items w !! key = None ->
      forallb (fun o => negb (cache.is_set_of key o)) ops = true ->
      fst ((cache.run_ops ops ;; cache.get key) w) = Normal None).
Proof.
  split.
  - intros key value between w (text & Htext & Hne) Hsound Hbetween.
    destruct (set_run key value w) as (w1 & E1 & Hs1 & Hi1 & Hc1 & _).
    destruct (run_ops_run between w1) as (w2 & E2 & Hs2 & Hc2 & Hk2 & _).
    destruct (get_run key w2) as (w3 & lg & E3 & _ & _ & _ & _ & _ & Hread).
    rewrite (bind_run _ _ _ _ _ E1), (bind_run _ _ _ _ _ E2), E3. simpl.
    assert (Hr1 : rejected w = false) by (apply Hsound; lia).
    assert (Hr2 : rejected w2 = false).
    { unfold rejected.
      destruct (same_app_state_trans _ _ _ Hs1 Hs2) as (_ & _ & _ & _ & _ & _ & ->).
      apply Hsound. rewrite Htext in Hc1. lia. }
    rewrite Hread, Hr2, (Hk2 key Hbetween), Hi1, Htext, Hr1, lookup_insert_eq.
    unfold json_roundtrip. rewrite Htext.
    destruct (String.eqb_spec text ""); [contradiction|reflexivity].
  - intros key ops w Habsent Hops.
    destruct (run_ops_run ops w) as (w1 & E1 & _ & _ & _ & Hn).
    destruct (get_run key w1) as (w2 & lg & E2 & _ & _ & _ & _ & _ & Hread).
    rewrite (bind_run _ _ _ _ _ E1), E2. simpl.
    rewrite Hread, (Hn key Hops Habsent). destruct (rejected w1); reflexivity.
Qed.

(** C9.  No cache operation throws.  [cache.set], [cache.remove] and
    [cache.clear] return normally and leave the application state alone;
    when the storage call is rejected (or the value cannot be serialised)
    they leave the stored items as they were.  [cache.get] returns
    normally, changes no item, and gives [null] when the storage read is
    rejected or the stored text does not parse. *)
Theorem cache_never_throws (key : string) (value : V) (w : World R L) :
  (exists w',
      cache.set key value w = (Normal tt, w') /\ same_app_state w w' /\
      (rejected w = true \/ JSON.stringify value = None ->
       storage_items w' = storage_items w)) /\
  (exists w',
      cache.remove key w = (Normal tt, w') /\ same_app_state w w' /\
      (rejected w = true -> storage_items w' = storage_items w)) /\
  (exists w',
      cache.clear w = (Normal tt, w') /\ same_app_state w w' /\
      (rejected w = true -> storage_items w' = storage_items w)) /\
  (exists r w',
      cache.get key w = (Normal r, w') /\ same_app_state w w' /\
      storage_items w' = storage_items w /\
      (rejected w = true -> r = None) /\
      (forall text, storage_items w !! key = Some text ->
                    JSON.parse text = JSON.Malformed -> r = None)).
Proof.
  repeat apply conj.
  - destruct (set_run key value w) as (w' & E & Hs & Hi & _).
    exists w'. repeat split; try apply Hs; auto.
    intros [Hr | Hn]; rewrite Hi.
    + rewrite Hr. destruct (JSON.stringify value); reflexivity.
    + rewrite Hn. reflexivity.
  - destruct (remove_run key w) as (w' & E & Hs & Hi & _).
    exists w'. repeat split; try apply Hs; auto.
    intros Hr. rewrite Hi, Hr. reflexivity.
  - destruct (clear_run w) as (w' & E & Hs & Hi & _).
    exists w'. repeat split; try apply Hs; auto.
    intros Hr. rewrite Hi, Hr. reflexivity.
  - destruct (get_run key w) as (w' & lg & E & Hs & Hi & _ & _ & _ & Hread).
    eexists. exists w'. split; [exact E|].
    repeat split; try apply Hs; auto.
    + rewrite Hread. intros ->. reflexivity.
    + intros text Ht Hp. rewrite Hread, Ht, Hp.
      destruct (rejected w); [reflexivity|].
      destruct (String.eqb text ""); reflexivity.
Qed.

End cache_facts.

(** ** The alerts screen *)
Section alerts_facts.
Context `{JSON.Codec (list Alert.t)}.

Local Abbreviation AlertsWorld := (World Alert.t AlertsScreen.State).

(** The cache-read step: one storage read unless refreshing, at most one
    list displayed, no request, no dialog, no item changed. *)
Lemma load_from_cache_run (isRefresh : bool) (w : AlertsWorld) :
  exists w1 pre,
    AlertsScreen.load_from_cache isRefresh w = (Normal tt, w1) /\
    trace w1 = trace w ++ pre /\
    requests pre = [] /\ dialogs pre = [] /\
    displayed pre = shown_from_cache isRefresh w /\
    storage_trace pre = (if isRefresh then [] else [GetItem "alerts"]) /\
    store_alerts w1 = List.last (shown_from_cache isRefresh w) (store_alerts w) /\
    storage_items w1 = storage_items w /\
    storage_calls w1 =
      (if isRefresh then storage_calls w else S (storage_calls w)) /\
    backend_calls w1 = backend_calls w /\ local w1 = local w /\
    same_surroundings w w1.
Proof.
  unfold AlertsScreen.load_from_cache, shown_from_cache.
  destruct isRefresh; simpl.
  - exists w, []. unfold ret. rewrite app_nil_r.
    repeat split; reflexivity.
  - destruct (get_run (V := list Alert.t) "alerts" w)
      as (w1 & logged & E & Hs & Hi & Hc & Ht & Hl & _).
    destruct Hs as (s1 & s2 & s3 & s4 & s5 & s6 & s7).
    rewrite (bind_run _ _ _ _ _ E).
    assert (Hlog : requests logged = [] /\ dialogs logged = [] /\
                   displayed logged = [] /\ storage_trace logged = []).
    { destruct Hl as [-> | ->]; repeat split; reflexivity. }
    destruct Hlog as (l1 & l2 & l3 & l4).
    destruct (cache_read "alerts" w) as [l|].
    + destruct (Nat.ltb 0 (length l)).
      * eexists. exists (EvStorage (GetItem "alerts") :: logged ++ [EvSetAlerts l]).
        unfold setAlerts. split; [reflexivity|]. simpl.
        autorewrite with trace_db. rewrite Ht, l1, l2, l3, l4. simpl.
        rewrite <- app_assoc. simpl.
        unfold same_surroundings. repeat split; auto.
      * exists w1, (EvStorage (GetItem "alerts") :: logged).
        unfold ret. simpl. rewrite Ht, l1, l2, l3, l4.
        unfold same_surroundings. repeat split; auto.
    + exists w1, (EvStorage (GetItem "alerts") :: logged).
      unfold ret. simpl. rewrite Ht, l1, l2, l3, l4.
      unfold same_surroundings. repeat split; auto.
Qed.

(** One run of [fetchAlerts]: the cache-read step (world [w1], trace
    [pre]), one request, and what follows it ([post]) by the answer. *)
Lemma fetchAlerts_run (user : option User.t) (isRefresh : bool) (w : AlertsWorld) :
  exists w1 pre w' post,
    AlertsScreen.load_from_cache isRefresh w = (Normal tt, w1) /\
    AlertsScreen.fetchAlerts user isRefresh w = (Normal tt, w') /\
    trace w' = trace w ++ pre ++ EvRequest (AlertsScreen.alerts_query user) :: post /\
    (requests pre = [] /\ dialogs pre = [] /\
     displayed pre = shown_from_cache isRefresh w /\
     storage_trace pre = (if isRefresh then [] else [GetItem "alerts"])) /\
    (store_alerts w1 = List.last (shown_from_cache isRefresh w) (store_alerts w) /\
     storage_calls w1 =
       (if isRefresh then storage_calls w else S (storage_calls w)) /\
     storage_rejects w1 = storage_rejects w) /\
    (AlertsScreen.loading (local w') = false /\
     AlertsScreen.refreshing (local w') = false /\
     AlertsScreen.modalVisible (local w') = AlertsScreen.modalVisible (local w)) /\
    backend_calls w' = S (backend_calls w) /\
    same_surroundings w w' /\
    match supabase.error (next_response w (AlertsScreen.alerts_query user)),
          supabase.data (next_response w (AlertsScreen.alerts_query user)) with
    | Some _, _ =>
        post = [EvConsoleError "Error fetching alerts:";
                EvDialog "Error" "Failed to load alerts" []] /\
        store_alerts w' = store_alerts w1 /\
        storage_items w' = storage_items w /\
        storage_calls w' = storage_calls w1
    | None, Some rows =>
        post = EvSetAlerts rows :: set_events "alerts" rows w1 /\
        store_alerts w' = rows /\
        storage_items w' =
          match JSON.stringify rows with
          | Some text => if rejected w1 then storage_items w
                         else <["alerts":=text]> (storage_items w)
          | None => storage_items w
          end /\
        storage_calls w' =
          match JSON.stringify rows with
          | Some _ => S (storage_calls w1)
          | None => storage_calls w1
          end
    | None, None =>
        post = [] /\ store_alerts w' = store_alerts w1 /\
        storage_items w' = storage_items w /\
        storage_calls w' = storage_calls w1
    end.
Proof.
  destruct (load_from_cache_run isRefresh w)
    as (w1 & pre & E1 & Ht1 & p1 & p2 & p3 & p4 & Ha1 & Hi1 & Hc1 & Hb1 & Hl1 & Hs1).
  destruct Hs1 as (s1 & s2 & s3 & s4).
  exists w1, pre.
  unfold AlertsScreen.fetchAlerts, try_finally, try_catch.
  rewrite (bind_run _ _ _ _ _ E1).
  unfold bind at 1. unfold await_query at 1.
  unfold next_response. rewrite <- s1, <- Hb1.
  destruct (supabase.error (backend w1 (backend_calls w1) (AlertsScreen.alerts_query user)))
    as [e|].
  - (* the query failed *)
    do 2 eexists. split; [exact E1|].
    unfold throw, bind, console_error, RNAlert, log, AlertsScreen.setLoading,
      AlertsScreen.setRefreshing, modify_local. simpl.
    split; [reflexivity|]. simpl. rewrite Ht1, <- !app_assoc. simpl.
    rewrite Hl1, Hi1, s2.
    unfold same_surroundings. repeat split; auto.
  - destruct (supabase.data (backend w1 (backend_calls w1) (AlertsScreen.alerts_query user)))
      as [rows|].
    + (* rows arrived *)
      unfold bind at 1. unfold setAlerts at 1.
      match goal with
      | |- context [cache.set "alerts" rows ?w2] =>
          destruct (set_run "alerts" rows w2) as (w3 & E3 & Hs3 & Hi3 & Hc3 & Ht3);
          assert (Hev : set_events "alerts" rows w2 = set_events "alerts" rows w1)
            by reflexivity
      end.
      destruct Hs3 as (t1 & t2 & t3 & t4 & t5 & t6 & t7). simpl in *.
      do 2 eexists. split; [exact E1|].
      rewrite E3.
      unfold bind, AlertsScreen.setLoading, AlertsScreen.setRefreshing,
        modify_local. simpl.
      split; [reflexivity|]. simpl.
      rewrite Ht3, Hev, Ht1, <- !app_assoc. simpl.
      rewrite t4, t1, t5, Hl1, s2, Hi3, Hc3, Hi1, t6, t7, t3, t2. simpl.
      unfold same_surroundings. repeat split; auto.
    + (* neither rows nor an error *)
      do 2 eexists. split; [exact E1|].
      unfold ret, bind, AlertsScreen.setLoading, AlertsScreen.setRefreshing,
        modify_local. simpl.
      split; [reflexivity|]. simpl. rewrite Ht1, <- !app_assoc. simpl.
      rewrite Hl1, Hi1, s2.
      unfold same_surroundings. repeat split; auto.
Qed.

(** C3 (as amended).  [fetchAlerts] with [isRefresh = false] first reads the cached
    ["alerts"] value and displays it only if it is neither null nor empty
    ([shown_from_cache]), then queries the backend for the user's alerts
    ordered by [created_at] descending; when the query succeeds the
    displayed list becomes exactly the returned rows, whatever was
    displayed or cached before, and [cache.set] is called with the rows:
    the entry holds them when the storage accepts that write, and is left
    as it was, with nothing shown, when the storage rejects it.  With
    [isRefresh = true] no storage read is made. *)
Theorem fetchAlerts_cache_then_network (user : option User.t)
    (isRefresh : bool) (w : AlertsWorld) (rows : list Alert.t) :
  supabase.error (next_response w (AlertsScreen.alerts_query user)) = None ->
  supabase.data (next_response w (AlertsScreen.alerts_query user)) = Some rows ->
  exists w' pre post,
    AlertsScreen.fetchAlerts user isRefresh w = (Normal tt, w') /\
    trace w' =
      trace w ++ pre
        ++ [EvRequest (AlertsScreen.alerts_query user); EvSetAlerts rows]
        ++ post /\
    (* before the query: the cache-read step *)
    storage_trace pre = (if isRefresh then [] else [GetItem "alerts"]) /\
    displayed pre = shown_from_cache isRefresh w /\
    requests pre = [] /\
    (* the query *)
    AlertsScreen.alerts_query user =
      {| supabase.table := "alerts";
         supabase.verb := Some (supabase.Select "*");
         supabase.filters := [("user_id", option_map User.id user)];
         supabase.ordering := Some ("created_at", false);
         supabase.row_limit := None;
         supabase.returning := false;
         supabase.single_row := false |} /\
    (* after the query *)
    store_alerts w' = rows /\
    requests post = [] /\ displayed post = [] /\ dialogs post = [] /\
    (forall text,
        JSON.stringify rows = Some text ->
        storage_trace post = [SetItem "alerts" text] /\
        (last_call_accepted w' -> storage_items w' !! "alerts" = Some text) /\
        (storage_rejects w' (pred (storage_calls w')) = true ->
         storage_items w' = storage_items w)).
Proof.
  intros Herr Hdata.
  destruct (fetchAlerts_run user isRefresh w)
    as (w1 & pre & w' & post & E1 & E & Ht & (p1 & p2 & p3 & p4)
        & (Ha1 & Hc1 & Hr1) & _ & _ & (s1 & s2 & _) & Hcase).
  rewrite Herr, Hdata in Hcase. destruct Hcase as (Hpost & Ha & Hi & Hc).
  destruct (set_events_quiet "alerts" rows w1) as (q1 & q2 & q3 & q4).
  exists w', pre, (set_events "alerts" rows w1).
  split; [exact E|]. split; [rewrite Ht, Hpost; reflexivity|].
  split; [exact p4|]. split; [exact p3|]. split; [exact p1|].
  split; [reflexivity|]. split; [exact Ha|].
  split; [exact q1|]. split; [exact q3|]. split; [exact q2|].
  intros text Htext. split; [rewrite q4, Htext; reflexivity|].
  unfold last_call_accepted. rewrite Hi, Hc, Htext, s2. cbn [pred].
  unfold rejected. rewrite Hr1. split.
  - intros ->. apply lookup_insert_eq.
  - intros ->. reflexivity.
Qed.

(** C4 (as amended).  When the query of [fetchAlerts] returns an error,
    the dialog "Error" / "Failed to load alerts" is shown, exactly one
    request has been made, no stored item has changed, both flags are
    false afterwards, and the displayed list is the one the cache-read
    step set: the cached list when [isRefresh] is false and the cache held
    a non-empty list, the previous list otherwise. *)
Theorem fetchAlerts_query_error (user : option User.t) (isRefresh : bool)
    (w : AlertsWorld) (e : JSError) :
  supabase.error (next_response w (AlertsScreen.alerts_query user)) = Some e ->
  exists w',
    AlertsScreen.fetchAlerts user isRefresh w = (Normal tt, w') /\
    dialogs (trace w') = dialogs (trace w) ++ [("Error", "Failed to load alerts")] /\
    requests (trace w') = requests (trace w) ++ [AlertsScreen.alerts_query user] /\
    backend_calls w' = S (backend_calls w) /\
    storage_items w' = storage_items w /\
    store_alerts w' = List.last (shown_from_cache isRefresh w) (store_alerts w) /\
    AlertsScreen.loading (local w') = false /\
    AlertsScreen.refreshing (local w') = false.
Proof.
  intros Herr.
  destruct (fetchAlerts_run user isRefresh w)
    as (w1 & pre & w' & post & E1 & E & Ht & (p1 & p2 & p3 & p4)
        & (Ha1 & Hc1 & Hr1) & (Hl & Hf & _) & Hb & _ & Hcase).
  rewrite Herr in Hcase. destruct Hcase as (Hpost & Ha & Hi & Hc).
  exists w'. split; [exact E|].
  rewrite Ht, Hpost. autorewrite with trace_db. rewrite p1, p2. simpl.
  repeat split; auto. congruence.
Qed.

(** C7.  For a signed-in user the mount effect registers a subscription on
    every event of the [alerts] table in schema [public], filtered to
    the rows of that user; and every change delivered on it, whatever
    its kind, runs [fetchAlerts], which sends the query for the user's
    alerts to the backend. *)
Theorem realtime_change_refetches (user : User.t) (w : AlertsWorld) :
  let s := AlertsScreen.alerts_changes (Some user) in
  (exists w',
      AlertsScreen.useEffect_user (Some user) w = (Normal tt, w') /\
      subscriptions w' = subscriptions w ++ [s]) /\
  changes s =
    {| supabase.event := "*"; supabase.schema := "public";
       supabase.changes_table := "alerts";
       supabase.filter := "user_id=eq." ++ User.id user |} /\
  (forall (change : AlertsScreen.Change) (w2 : AlertsWorld),
      exists w3,
        AlertsScreen.deliver s change w2 = (Normal tt, w3) /\
        requests (trace w3) =
          requests (trace w2) ++ [AlertsScreen.alerts_query (Some user)]).
Proof.
  simpl. repeat apply conj.
  - destruct (fetchAlerts_run (Some user) false w)
      as (w1 & pre & w' & post & _ & E & _ & _ & _ & _ & _ & (_ & _ & s3 & _) & _).
    eexists. rewrite (bind_run _ _ _ _ _ E).
    unfold AlertsScreen.setupRealtimeSubscription, subscribe. simpl.
    split; [reflexivity|]. simpl. rewrite s3. reflexivity.
  - reflexivity.
  - intros change w2.
    destruct (fetchAlerts_run (Some user) false w2)
      as (w1 & pre & w3 & post & _ & E & Ht & (p1 & _) & _ & _ & _ & _ & Hcase).
    exists w3. split; [exact E|].
    rewrite Ht. autorewrite with trace_db. rewrite p1. simpl.
    assert (Hp : requests post = []).
    { destruct (supabase.error _); [destruct Hcase as (-> & _); reflexivity|].
      destruct (supabase.data _) as [rows|]; destruct Hcase as (-> & _);
        [|reflexivity].
      simpl. unfold set_events.
      destruct (JSON.stringify rows); [destruct (rejected w1)|]; reflexivity. }
    rewrite Hp. reflexivity.
Qed.

(** The list [alerts.map(...)] of [toggleAlertStatus], entry by entry. *)
Lemma toggled_entries (alerts : list Alert.t) (alert : Alert.t) :
  length (AlertsScreen.toggled alerts alert) = length alerts /\
  forall (i : nat) (a : Alert.t),
    nth_error alerts i = Some a ->
    exists a',
      nth_error (AlertsScreen.toggled alerts alert) i = Some a' /\
      same_but_is_active a a' /\
      Alert.is_active a' =
        (if String.eqb (Alert.id a) (Alert.id alert)
         then negb (Alert.is_active a) else Alert.is_active a) /\
      (Alert.id a <> Alert.id alert -> a' = a).
Proof.
  unfold AlertsScreen.toggled. split.
  - apply length_map.
  - intros i a Hi. rewrite nth_error_map, Hi. simpl.
    eexists. split; [reflexivity|].
    destruct (String.eqb_spec (Alert.id a) (Alert.id alert)) as [Heq|Hne].
    + unfold same_but_is_active. simpl. repeat split; auto.
      intros Hc. contradiction.
    + unfold same_but_is_active. repeat split; auto.
Qed.



(** One run of [toggleAlertStatus]: the optimistic list is displayed and
    handed to [cache.set], the update is sent, and what follows it
    ([later]) by the answer. *)
Lemma toggleAlertStatus_run (alerts : list Alert.t) (alert : Alert.t)
    (w : AlertsWorld) :
  exists w' later,
    AlertsScreen.toggleAlertStatus alerts alert w = (Normal tt, w') /\
    trace w' =
      trace w ++ EvSetAlerts (AlertsScreen.toggled alerts alert)
        :: set_events "alerts" (AlertsScreen.toggled alerts alert) w
        ++ EvRequest (supabase.from "alerts"
                      |> supabase.update (negb (Alert.is_active alert))
                      |> supabase.eq "id" (Some (Alert.id alert)))
        :: later /\
    match supabase.error
            (next_response w
               (supabase.from "alerts"
                |> supabase.update (negb (Alert.is_active alert))
                |> supabase.eq "id" (Some (Alert.id alert)))) with
    | Some _ => displayed later = [alerts]
    | None => later = [] /\ store_alerts w' = AlertsScreen.toggled alerts alert
    end.
Proof.
  unfold AlertsScreen.toggleAlertStatus, try_catch.
  unfold bind at 1. unfold setAlerts at 1. unfold bind at 1.
  match goal with
  | |- context [cache.set "alerts" ?u ?w1] =>
      destruct (set_run "alerts" u w1)
        as (w2 & E2 & Hs2 & Hi2 & Hc2 & Ht2);
      assert (Hev : set_events "alerts" u w1 = set_events "alerts" u w)
        by reflexivity
  end.
  destruct Hs2 as (a1 & a2 & a3 & a4 & a5 & a6 & a7). world_simpl.
  rewrite E2.
  unfold bind at 1. unfold await_query at 1.
  unfold next_response. rewrite a6, a5.
  destruct (supabase.error (backend w (backend_calls w) _)) as [e|].
  - unfold bind at 1. unfold setAlerts at 1. unfold bind at 1.
    match goal with
    | |- context [cache.set "alerts" alerts ?w3] =>
        destruct (set_run "alerts" alerts w3)
          as (w4 & E4 & Hs4 & Hi4 & Hc4 & Ht4)
    end.
    assert (q3 : forall w0 : AlertsWorld,
               displayed (set_events "alerts" alerts w0) = [])
      by (intros w0; apply set_events_quiet).
    world_simpl. rewrite E4.
    unfold throw, bind, console_error, RNAlert, log. world_simpl.
    do 2 eexists. split; [reflexivity|]. world_simpl.
    rewrite Ht4, Ht2, Hev. world_simpl.
    split; [rewrite <- !app_assoc; cbn [app]; reflexivity|].
    cbn [displayed]. rewrite displayed_app, q3. reflexivity.
  - unfold ret. do 2 eexists. split; [reflexivity|]. world_simpl.
    rewrite Ht2, Hev, <- !app_assoc. cbn [app].
    split; [reflexivity|]. split; [reflexivity|exact a1].
Qed.

(** C2.  The optimistic update performed by [toggleAlertStatus]: whatever
    the backend answers, the first list the handler displays, which it
    also hands to [cache.set] and which stays in the store when the
    update is accepted, has the length and the order of the list it was
    given; the entry at each position keeps every field but [is_active],
    has [is_active] negated exactly when its id is the toggled alert's
    id, and is the same entry otherwise. *)
Theorem toggled_changes_only_is_active (alerts : list Alert.t)
    (alert : Alert.t) (w : AlertsWorld) :
  exists w' updated,
    AlertsScreen.toggleAlertStatus alerts alert w = (Normal tt, w') /\
    (exists later,
        displayed (trace w') = displayed (trace w) ++ updated :: later) /\
    (forall text,
        JSON.stringify updated = Some text ->
        exists later,
          storage_trace (trace w') =
            storage_trace (trace w) ++ SetItem "alerts" text :: later) /\
    (supabase.error
       (next_response w
          (supabase.from "alerts"
           |> supabase.update (negb (Alert.is_active alert))
           |> supabase.eq "id" (Some (Alert.id alert)))) = None ->
     store_alerts w' = updated /\
     displayed (trace w') = displayed (trace w) ++ [updated]) /\
    length updated = length alerts /\
    forall (i : nat) (a : Alert.t),
      nth_error alerts i = Some a ->
      exists a',
        nth_error updated i = Some a' /\
        same_but_is_active a a' /\
        Alert.is_active a' =
          (if String.eqb (Alert.id a) (Alert.id alert)
           then negb (Alert.is_active a) else Alert.is_active a) /\
        (Alert.id a <> Alert.id alert -> a' = a).
Proof.
  destruct (toggleAlertStatus_run alerts alert w) as (w' & later & E & Ht & Hcase).
  destruct (set_events_quiet "alerts" (AlertsScreen.toggled alerts alert) w)
    as (_ & _ & q3 & q4).
  exists w', (AlertsScreen.toggled alerts alert).
  split; [exact E|].
  assert (Hd : displayed (trace w') =
               displayed (trace w)
                 ++ AlertsScreen.toggled alerts alert :: displayed later).
  { rewrite Ht. autorewrite with trace_db. cbn [displayed].
    autorewrite with trace_db. cbn [displayed]. rewrite q3. reflexivity. }
  split; [exists (displayed later); exact Hd|].
  split.
  { intros text Htext. exists (storage_trace later).
    rewrite Ht. autorewrite with trace_db. cbn [storage_trace].
    autorewrite with trace_db. cbn [storage_trace].
    rewrite q4, Htext. reflexivity. }
  split.
  { intros Herr. rewrite Herr in Hcase. destruct Hcase as (Hl & Ha).
    split; [exact Ha|]. rewrite Hd, Hl. reflexivity. }
  apply toggled_entries.
Qed.

End alerts_facts.

(** ** The audit-trail screen *)
Section admin_facts.

Local Abbreviation AdminWorld := (World AuditTrailEntry.t AdminScreen.State).

Lemma fetchAuditTrail_run (isRefresh : bool) (w : AdminWorld) :
  exists w',
    AdminScreen.fetchAuditTrail isRefresh w = (Normal tt, w') /\
    requests (trace w') = requests (trace w) ++ [AdminScreen.audit_query] /\
    backend_calls w' = S (backend_calls w) /\ backend w' = backend w /\
    AdminScreen.loading (local w') = false /\
    AdminScreen.auditData (local w') =
      match supabase.error (next_response w AdminScreen.audit_query),
            supabase.data (next_response w AdminScreen.audit_query) with
      | None, Some rows => rows
      | _, _ => AdminScreen.auditData (local w)
      end.
Proof.
  unfold AdminScreen.fetchAuditTrail, try_finally, try_catch, next_response.
  destruct isRefresh.
  - unfold bind at 1. unfold AdminScreen.setRefreshing at 1, modify_local at 1.
    unfold bind at 1. unfold await_query at 1. world_simpl.
    destruct (supabase.error (backend w (backend_calls w) AdminScreen.audit_query)).
    + unfold throw, bind, console_error, RNAlert, log, AdminScreen.setLoading,
        AdminScreen.setRefreshing, modify_local. world_simpl.
      eexists. split; [reflexivity|]. world_simpl.
      trace_simpl. repeat split; reflexivity.
    + destruct (supabase.data (backend w (backend_calls w) AdminScreen.audit_query)).
      * unfold bind, AdminScreen.setAuditData, AdminScreen.setLoading,
          AdminScreen.setRefreshing, modify_local. world_simpl.
        eexists. split; [reflexivity|]. world_simpl.
        trace_simpl. repeat split; reflexivity.
      * unfold bind, ret, AdminScreen.setLoading,
          AdminScreen.setRefreshing, modify_local. world_simpl.
        eexists. split; [reflexivity|]. world_simpl.
        trace_simpl. repeat split; reflexivity.
  - unfold bind at 1. unfold ret at 1.
    unfold bind at 1. unfold await_query at 1. world_simpl.
    destruct (supabase.error (backend w (backend_calls w) AdminScreen.audit_query)).
    + unfold throw, bind, console_error, RNAlert, log, AdminScreen.setLoading,
        AdminScreen.setRefreshing, modify_local. world_simpl.
      eexists. split; [reflexivity|]. world_simpl.
      trace_simpl. repeat split; reflexivity.
    + destruct (supabase.data (backend w (backend_calls w) AdminScreen.audit_query)).
      * unfold bind, AdminScreen.setAuditData, AdminScreen.setLoading,
          AdminScreen.setRefreshing, modify_local. world_simpl.
        eexists. split; [reflexivity|]. world_simpl.
        trace_simpl. repeat split; reflexivity.
      * unfold bind, ret, AdminScreen.setLoading,
          AdminScreen.setRefreshing, modify_local. world_simpl.
        eexists. split; [reflexivity|]. world_simpl.
        trace_simpl. repeat split; reflexivity.
Qed.

(** A session under a profile that is not an admin's changes nothing but
    the loading flag. *)
Lemma session_not_admin (profile : option Profile.t) (gestures : nat)
    (w : AdminWorld) :
  AdminScreen.is_admin profile = false ->
  exists w',
    AdminScreen.session profile gestures w = (Normal tt, w') /\
    trace w' = trace w /\ backend_calls w' = backend_calls w /\
    AdminScreen.auditData (local w') = AdminScreen.auditData (local w).
Proof.
  intros Hp. induction gestures as [|n IH].
  - simpl. unfold AdminScreen.useEffect_profile. rewrite Hp.
    unfold AdminScreen.setLoading, modify_local.
    eexists. split; [reflexivity|]. world_simpl. repeat split; reflexivity.
  - destruct IH as (w1 & E1 & Ht & Hb & Ha).
    simpl. rewrite (bind_run _ _ _ _ _ E1).
    unfold AdminScreen.pull_to_refresh, AdminScreen.render. rewrite Hp. simpl.
    exists w1. unfold ret. repeat split; assumption.
Qed.

(** A session of an admin sends the audit query once for the mount and
    once per refresh gesture. *)
Lemma session_admin (profile : option Profile.t) (gestures : nat)
    (w : AdminWorld) :
  AdminScreen.is_admin profile = true ->
  exists w',
    AdminScreen.session profile gestures w = (Normal tt, w') /\
    requests (trace w') =
      requests (trace w) ++ repeat AdminScreen.audit_query (S gestures) /\
    backend w' = backend w /\
    AdminScreen.loading (local w') = false /\
    (honours_limit w ->
     length (AdminScreen.auditData (local w)) <= 100 ->
     length (AdminScreen.auditData (local w')) <= 100).
Proof.
  intros Hp.
  assert (Hstep : forall w0 : AdminWorld, forall isRefresh w1,
             AdminScreen.fetchAuditTrail isRefresh w0 = (Normal tt, w1) ->
             backend w1 = backend w0 ->
             AdminScreen.auditData (local w1) =
               match supabase.error (next_response w0 AdminScreen.audit_query),
                     supabase.data (next_response w0 AdminScreen.audit_query) with
               | None, Some rows => rows
               | _, _ => AdminScreen.auditData (local w0)
               end ->
             honours_limit w0 ->
             length (AdminScreen.auditData (local w0)) <= 100 ->
             length (AdminScreen.auditData (local w1)) <= 100).
  { intros w0 isRefresh w1 _ _ Ha Hh Hl. rewrite Ha.
    destruct (supabase.error _); [assumption|].
    destruct (supabase.data _) as [rows|] eqn:Hd; [|assumption].
    apply (Hh (backend_calls w0) AdminScreen.audit_query 100 rows);
      [reflexivity|exact Hd]. }
  induction gestures as [|n IH].
  - simpl. unfold AdminScreen.useEffect_profile. rewrite Hp.
    destruct (fetchAuditTrail_run false w) as (w' & E & Hr & Hc & Hb & Hl & Ha).
    exists w'. repeat split; auto.
    intros Hh Hlen. exact (Hstep w false w' E Hb Ha Hh Hlen).
  - destruct IH as (w1 & E1 & Hr1 & Hb1 & Hl1 & Hlen1).
    simpl. rewrite (bind_run _ _ _ _ _ E1).
    unfold AdminScreen.pull_to_refresh, AdminScreen.render.
    rewrite Hp, Hl1. simpl. unfold AdminScreen.onRefresh.
    destruct (fetchAuditTrail_run true w1) as (w' & E & Hr & Hc & Hb & Hl & Ha).
    exists w'. split; [exact E|]. split.
    + rewrite Hr, Hr1, <- app_assoc. f_equal.
      symmetry. exact (repeat_cons (S n) AdminScreen.audit_query).
    + split; [congruence|]. split; [exact Hl|].
      intros Hh Hlen. apply (Hstep w1 true w' E Hb Ha).
      * unfold honours_limit in *. rewrite Hb1. exact Hh.
      * exact (Hlen1 Hh Hlen).
Qed.

(** C5.  Only under a profile with [is_admin] true does a session of the
    audit-trail screen send requests, each of them the query on
    [audit_trail] ordered by [triggered_at] descending with a limit of
    100 rows (so the list shown has at most 100 entries with a backend
    that honours the limit); under any other profile, or none, nothing is
    requested and the screen renders the access-denied view. *)
Theorem audit_trail_for_admins_only (profile : option Profile.t)
    (gestures : nat) (w : AdminWorld) :
  exists w',
    AdminScreen.session profile gestures w = (Normal tt, w') /\
    (AdminScreen.is_admin profile = false ->
     trace w' = trace w /\ backend_calls w' = backend_calls w /\
     AdminScreen.render profile (local w') = AdminScreen.AccessDenied) /\
    (AdminScreen.is_admin profile = true ->
     requests (trace w') =
       requests (trace w) ++ repeat AdminScreen.audit_query (S gestures)) /\
    AdminScreen.audit_query =
      {| supabase.table := "audit_trail";
         supabase.verb := Some (supabase.Select "*");
         supabase.filters := [];
         supabase.ordering := Some ("triggered_at", false);
         supabase.row_limit := Some 100;
         supabase.returning := false;
         supabase.single_row := false |} /\
    (honours_limit w ->
     length (AdminScreen.auditData (local w)) <= 100 ->
     length (AdminScreen.auditData (local w')) <= 100).
Proof.
  destruct (AdminScreen.is_admin profile) eqn:Hp.
  - destruct (session_admin profile gestures w Hp) as (w' & E & Hr & _ & _ & Hlen).
    exists w'. split; [exact E|]. split; [discriminate|].
    split; [intros _; exact Hr|]. split; [reflexivity|exact Hlen].
  - destruct (session_not_admin profile gestures w Hp) as (w' & E & Ht & Hb & Ha).
    exists w'. split; [exact E|]. split.
    + intros _. unfold AdminScreen.render. rewrite Hp. auto.
    + split; [discriminate|]. split; [reflexivity|].
      intros _ Hlen. rewrite Ha. exact Hlen.
Qed.

End admin_facts.

(** ** The create-alert form *)
Section create_alert_facts.
Variable parseFloat : string -> number.

Local Abbreviation FormWorld := (World Alert.t CreateAlertModal.State).

Lemma validation_spec (s : CreateAlertModal.State) :
  CreateAlertModal.validation parseFloat s <> None <->
  validation_fails parseFloat s.
Proof.
  unfold CreateAlertModal.validation, validation_fails.
  destruct (String.eqb_spec (trim (CreateAlertModal.symbol s)) "") as [Hs|Hs];
    [split; [intros _; left; exact Hs | discriminate]|].
  destruct (String.eqb_spec (trim (CreateAlertModal.conditionValue s)) "")
    as [Hv|Hv];
    [split; [intros _; right; left; exact Hv | discriminate]|].
  destruct (PrimFloat.is_nan (parseFloat (CreateAlertModal.conditionValue s)))
    eqn:Hn;
    [split; [intros _; right; right; left; reflexivity | discriminate]|].
  destruct (CreateAlertModal.signalType s) eqn:Hsig.
  - destruct (PrimFloat.leb (parseFloat (CreateAlertModal.conditionValue s)) 0)
      eqn:Hle.
    + split; [intros _; do 4 right; split; reflexivity | discriminate].
    + split; [intros Hc; contradiction|].
      intros [F|[F|[F|[[F _]|[_ F]]]]]; try contradiction; discriminate.
  - destruct (PrimFloat.ltb (parseFloat (CreateAlertModal.conditionValue s)) 0)
      eqn:Hlt; simpl.
    + split; [intros _; do 3 right; left; split; auto | discriminate].
    + destruct (PrimFloat.ltb 100 (parseFloat (CreateAlertModal.conditionValue s)))
        eqn:Hgt.
      * split; [intros _; do 3 right; left; split; auto | discriminate].
      * split; [intros Hc; contradiction|].
        intros [F|[F|[F|[[_ [F|F]]|[F _]]]]]; try contradiction; discriminate.
Qed.

(** C10.  Validation fails exactly when the symbol is blank after
    trimming, the threshold is blank after trimming or parses to NaN, the
    signal is RSI and the value is below 0 or above 100, or the signal is
    price and the value is at most 0; and a submit whose validation fails
    returns having shown one error dialog and changed nothing else: no
    request is sent, and the form, the store and the storage are as they
    were. *)
Theorem submit_rejected_by_validation (user : option User.t) (w : FormWorld) :
  (CreateAlertModal.validation parseFloat (local w) <> None <->
   validation_fails parseFloat (local w)) /\
  (forall message,
      CreateAlertModal.validation parseFloat (local w) = Some message ->
      exists w',
        CreateAlertModal.handleSubmit parseFloat user w = (Normal tt, w') /\
        trace w' = trace w ++ [EvDialog "Error" message []] /\
        same_app_state w w' /\
        storage_items w' = storage_items w /\
        storage_calls w' = storage_calls w).
Proof.
  split; [apply validation_spec|].
  intros message Hm.
  unfold CreateAlertModal.handleSubmit, CreateAlertModal.validateForm.
  unfold bind at 1. rewrite Hm.
  unfold bind, RNAlert, log, ret. world_simpl.
  eexists. split; [reflexivity|]. world_simpl.
  unfold same_app_state. world_simpl. repeat split; reflexivity.
Qed.







End create_alert_facts.

(** ** The properties on the sample data *)
Section samples.

#[local] Existing Instance Sample.alerts_codec.

Example trim_upper_symbol : trim (toUpperCase "  btc ") = "BTC".
Proof. reflexivity. Qed.

Example replace_first_only :
  replace "cross_" "" "cross_above" = "above" /\
  replace "cross_" "" "above" = "above" /\
  replace "a" "b" "banana" = "bbnana".
Proof. repeat split. Qed.

Example condition_types_of_the_cards :
  map (fun actions => CreateAlertModal.getConditionType (local (Sample.form actions)))
      [ [];
        [CreateAlertModal.PressOperator 1];
        [CreateAlertModal.PressCross];
        [CreateAlertModal.PressCross; CreateAlertModal.PressOperator 1];
        [CreateAlertModal.PressSignalType CreateAlertModal.rsi];
        [CreateAlertModal.PressSignalType CreateAlertModal.rsi;
         CreateAlertModal.PressOperator 1];
        [CreateAlertModal.PressSignalType CreateAlertModal.rsi;
         CreateAlertModal.PressCross];
        [CreateAlertModal.PressSignalType CreateAlertModal.rsi;
         CreateAlertModal.PressCross; CreateAlertModal.PressOperator 1] ]
  = ConditionType.
Proof. reflexivity. Qed.

Example validation_of_samples :
  map (fun actions =>
         CreateAlertModal.validation Sample.parseFloat (local (Sample.form actions)))
      [ [];
        [CreateAlertModal.ChangeSymbol "btc"];
        [CreateAlertModal.ChangeSymbol "btc";
         CreateAlertModal.ChangeConditionValue "soon"];
        [CreateAlertModal.ChangeSymbol "btc";
         CreateAlertModal.ChangeConditionValue "0"];
        [CreateAlertModal.ChangeSymbol "btc";
         CreateAlertModal.ChangeConditionValue "0.5"];
        [CreateAlertModal.ChangeSymbol "btc";
         CreateAlertModal.PressSignalType CreateAlertModal.rsi;
         CreateAlertModal.ChangeConditionValue "0"];
        [CreateAlertModal.ChangeSymbol "btc";
         CreateAlertModal.PressSignalType CreateAlertModal.rsi;
         CreateAlertModal.ChangeConditionValue "100.5"] ]
  = [ Some "Please enter a symbol";
      Some "Please enter a threshold value";
      Some "Please enter a valid number";
      Some "Price must be greater than 0";
      None;
      None;
      Some "RSI must be between 0 and 100" ].
Proof. vm_compute. reflexivity. Qed.

Example toggled_sample :
  AlertsScreen.toggled [Sample.btc; Sample.eth] Sample.eth
  = [Sample.btc; Alert.with_is_active true Sample.eth].
Proof. reflexivity. Qed.

Example realtime_filter_sample :
  supabase.filter (changes (AlertsScreen.alerts_changes (Some Sample.u1)))
  = "user_id=eq.u1".
Proof. reflexivity. Qed.

Lemma cache_get_after_set_witness :
  fst ((cache.set "alerts" [Sample.btc] ;;
        cache.run_ops [cache.OpGet "alerts"; cache.OpSet "draft" [Sample.eth];
                       cache.OpRemove "draft"] ;;
        cache.get "alerts") Sample.cold_start_online)
  = Normal (json_roundtrip [Sample.btc]) /\
  fst ((cache.run_ops [cache.OpSet "alerts" [Sample.eth]; cache.OpRemove "alerts"] ;;
        cache.get "draft") Sample.cold_start_online)
  = Normal None.
Proof.
  split.
  - apply (proj1 cache_get_after_set).
    + eexists. split; [reflexivity|]. vm_compute. discriminate.
    + intros n _. reflexivity.
    + reflexivity.
  - apply (proj2 cache_get_after_set); reflexivity.
Defined.

Lemma cache_never_throws_witness :
  exists w',
    cache.set "alerts" [Sample.eth] Sample.storage_down = (Normal tt, w') /\
    storage_items w' = storage_items Sample.storage_down.
Proof.
  destruct (cache_never_throws "alerts" [Sample.eth] Sample.storage_down)
    as ((w' & E & _ & Hi) & _).
  exists w'. split; [exact E|]. apply Hi. left. reflexivity.
Defined.

Lemma toggled_changes_only_is_active_witness :
  exists w' updated a',
    AlertsScreen.toggleAlertStatus [Sample.btc; Sample.eth] Sample.btc
      Sample.online_screen = (Normal tt, w') /\
    store_alerts w' = updated /\
    displayed (trace w') = [updated] /\
    length updated = 2 /\
    nth_error updated 0 = Some a' /\
    same_but_is_active Sample.btc a' /\
    Alert.is_active a' = false /\
    nth_error updated 1 = Some Sample.eth.
Proof.
  destruct (toggled_changes_only_is_active [Sample.btc; Sample.eth] Sample.btc
              Sample.online_screen)
    as (w' & updated & E & _ & _ & Haccepted & Hlen & Hentries).
  destruct (Haccepted eq_refl) as (Ha & Hd).
  destruct (Hentries 0 Sample.btc eq_refl) as (a' & Hn & Hsame & Hact & _).
  destruct (Hentries 1 Sample.eth eq_refl) as (b' & Hm & _ & _ & Hother).
  exists w', updated, a'. split; [exact E|]. split; [exact Ha|].
  split; [exact Hd|]. split; [exact Hlen|]. split; [exact Hn|].
  split; [exact Hsame|]. split; [exact Hact|].
  rewrite Hm, Hother; [reflexivity|discriminate].
Defined.



Lemma fetchAlerts_cache_then_network_witness :
  exists w' pre post,
    AlertsScreen.fetchAlerts (Some Sample.u1) false Sample.cold_start_online
    = (Normal tt, w') /\
    trace w' =
      pre ++ [EvRequest (AlertsScreen.alerts_query (Some Sample.u1));
              EvSetAlerts [Sample.btc; Sample.eth]] ++ post /\
    displayed pre = [[Sample.btc]] /\
    store_alerts w' = [Sample.btc; Sample.eth] /\
    storage_items w' !! "alerts" = Some (Sample.json_alerts [Sample.btc; Sample.eth]).
Proof.
  destruct (fetchAlerts_cache_then_network (Some Sample.u1) false
              Sample.cold_start_online [Sample.btc; Sample.eth]
              eq_refl eq_refl)
    as (w' & pre & post & E & Ht & _ & Hd & _ & _ & Ha & _ & _ & _ & Hw).
  exists w', pre, post. split; [exact E|]. split; [exact Ht|].
  split; [exact Hd|]. split; [exact Ha|].
  apply (proj1 (proj2 (Hw _ eq_refl))).
  change w' with (snd (Normal tt, w')). rewrite <- E.
  vm_compute. reflexivity.
Defined.

(** The query succeeds and its rows are displayed; the storage rejects
    the write-back, nothing is shown for it, and the cache still answers
    with the list it held before. *)
Lemma cache_keeps_old_list_when_write_back_rejected :
  let w := Sample.write_back_rejected in
  let w' := snd (AlertsScreen.fetchAlerts (Some Sample.u1) false w) in
  cache_read "alerts" w = Some [Sample.btc] /\
  supabase.error (next_response w (AlertsScreen.alerts_query (Some Sample.u1)))
  = None /\
  supabase.data (next_response w (AlertsScreen.alerts_query (Some Sample.u1)))
  = Some [Sample.btc; Sample.eth] /\
  fst (AlertsScreen.fetchAlerts (Some Sample.u1) false w) = Normal tt /\
  store_alerts w' = [Sample.btc; Sample.eth] /\
  storage_trace (trace w') =
    [GetItem "alerts";
     SetItem "alerts" (Sample.json_alerts [Sample.btc; Sample.eth])] /\
  dialogs (trace w') = [] /\
  storage_items w' !! "alerts" = Some (Sample.json_alerts [Sample.btc]) /\
  cache_read "alerts" w' = Some [Sample.btc] /\
  fst (cache.get "alerts" w') = Normal (Some [Sample.btc]).
Proof. vm_compute. repeat split. Qed.

Lemma fetchAlerts_query_error_witness :
  exists w',
    AlertsScreen.fetchAlerts (Some Sample.u1) true Sample.offline_screen
    = (Normal tt, w') /\
    dialogs (trace w') = [("Error", "Failed to load alerts")] /\
    requests (trace w') = [AlertsScreen.alerts_query (Some Sample.u1)] /\
    storage_items w' = Sample.cached [Sample.btc; Sample.eth] /\
    store_alerts w' = [Sample.btc; Sample.eth].
Proof.
  destruct (fetchAlerts_query_error (Some Sample.u1) true Sample.offline_screen
              (PostgrestError "Network request failed") eq_refl)
    as (w' & E & Hd & Hr & _ & Hi & Ha & _).
  exists w'. repeat split; assumption.
Defined.

(** Nothing was displayed; the query fails; the cached list is displayed
    all the same. *)
Lemma cached_list_displayed_despite_query_error :
  let w := Sample.cold_start_offline in
  let w' := snd (AlertsScreen.fetchAlerts (Some Sample.u1) false w) in
  store_alerts w = [] /\
  supabase.error (next_response w (AlertsScreen.alerts_query (Some Sample.u1)))
  = Some (PostgrestError "Network request failed") /\
  dialogs (trace w') = [("Error", "Failed to load alerts")] /\
  store_alerts w' = [Sample.btc].
Proof. vm_compute. repeat split. Qed.

Lemma audit_trail_for_admins_only_witness :
  exists w',
    AdminScreen.session None 2 Sample.audit_screen = (Normal tt, w') /\
    trace w' = [] /\
    AdminScreen.render None (local w') = AdminScreen.AccessDenied.
Proof.
  destruct (audit_trail_for_admins_only None 2 Sample.audit_screen)
    as (w' & E & Hdenied & _).
  destruct (Hdenied eq_refl) as (Ht & _ & Hr).
  exists w'. repeat split; assumption.
Defined.

Lemma submit_rejected_by_validation_witness :
  exists w',
    CreateAlertModal.handleSubmit Sample.parseFloat (Some Sample.u1)
      (Sample.form [CreateAlertModal.ChangeSymbol "btc";
                    CreateAlertModal.PressSignalType CreateAlertModal.rsi;
                    CreateAlertModal.ChangeConditionValue "120"])
    = (Normal tt, w') /\
    trace w' = [EvDialog "Error" "RSI must be between 0 and 100" []] /\
    local w' = local (Sample.form [CreateAlertModal.ChangeSymbol "btc";
                                   CreateAlertModal.PressSignalType CreateAlertModal.rsi;
                                   CreateAlertModal.ChangeConditionValue "120"]).
Proof.
  destruct (proj2 (submit_rejected_by_validation Sample.parseFloat
                     (Some Sample.u1)
                     (Sample.form [CreateAlertModal.ChangeSymbol "btc";
                                   CreateAlertModal.PressSignalType CreateAlertModal.rsi;
                                   CreateAlertModal.ChangeConditionValue "120"]))
              "RSI must be between 0 and 100" eq_refl)
    as (w' & E & Ht & Hs & _).
  exists w'. split; [exact E|]. split; [exact Ht|]. apply Hs.
Defined.

(** The [Alert] interface of [types/index.ts] lists four of the eight
    condition types.  The union is erased at run time and does not type
    the row the form sends: a price cross alert is sent with
    ["price_cross_above"]. *)
Example cross_alert_outside_Alert_condition_type :
  let w := Sample.form [CreateAlertModal.ChangeSymbol " btc";
                        CreateAlertModal.PressCross;
                        CreateAlertModal.ChangeConditionValue "50000"] in
  let w' := snd (CreateAlertModal.handleSubmit Sample.parseFloat
                   (Some Sample.u1) w) in
  map (fun row => (NewAlert.symbol row, NewAlert.condition_type row,
                   NewAlert.is_active row))
      (submitted (trace w'))
  = [("BTC", "price_cross_above", true)] /\
  is_member "price_cross_above" ConditionType = true /\
  is_member "price_cross_above" Alert_condition_type = false.
Proof. vm_compute. repeat split. Qed.



End samples.

(** * Further properties of the code around the stated ones *)

(** ** Lists of alerts: the optimistic updates and the store *)

Lemma is_active_twice (a : Alert.t) :
  Alert.with_is_active (negb (Alert.is_active (Alert.with_is_active
                                                 (negb (Alert.is_active a)) a)))
                       (Alert.with_is_active (negb (Alert.is_active a)) a)
  = a.
Proof. destruct a. simpl. rewrite negb_involutive. reflexivity. Qed.

(** X2.  Toggling the same alert twice gives back the list: the
    optimistic update of [toggleAlertStatus] is its own inverse. *)
Theorem toggled_twice (alerts : list Alert.t) (alert : Alert.t) :
  AlertsScreen.toggled (AlertsScreen.toggled alerts alert) alert = alerts.
Proof.
  unfold AlertsScreen.toggled. rewrite map_map.
  induction alerts as [|a rest IH]; [reflexivity|].
  simpl. rewrite IH. f_equal.
  destruct (String.eqb (Alert.id a) (Alert.id alert)) eqn:E.
  - simpl. rewrite E. apply is_active_twice.
  - rewrite E. reflexivity.
Qed.

Lemma same_id_same_alert (alerts : list Alert.t) (a b : Alert.t) :
  unique_ids alerts -> In a alerts -> In b alerts ->
  Alert.id a = Alert.id b -> a = b.
Proof.
  unfold unique_ids. induction alerts as [|x rest IH]; [intros _ []|].
  simpl. intros Hnd Ha Hb Hid. inversion Hnd as [|? ? Hx Hrest]; subst.
  destruct Ha as [->|Ha], Hb as [->|Hb]; auto.
  - exfalso. apply Hx. rewrite Hid. apply in_map. exact Hb.
  - exfalso. apply Hx. rewrite <- Hid. apply in_map. exact Ha.
Qed.

(** X3.  The optimistic delete keeps exactly the alerts whose id differs
    from the deleted alert's, in their order; deleting an alert that is
    not in the list changes nothing; and with unique ids deleting an alert
    of the list shortens it by one. *)
Theorem without_removes_the_id (alerts : list Alert.t) (alert : Alert.t) :
  (forall a, In a (AlertsScreen.without alerts alert) <->
             In a alerts /\ Alert.id a <> Alert.id alert) /\
  sublist (AlertsScreen.without alerts alert) alerts /\
  ((forall a, In a alerts -> Alert.id a <> Alert.id alert) ->
   AlertsScreen.without alerts alert = alerts) /\
  (unique_ids alerts -> In alert alerts ->
   S (length (AlertsScreen.without alerts alert)) = length alerts).
Proof.
  unfold AlertsScreen.without. repeat apply conj.
  - intros a. rewrite filter_In, negb_true_iff.
    split; intros [Hin Hid]; split; auto.
    + intros Heq. rewrite Heq, String.eqb_refl in Hid. discriminate.
    + destruct (String.eqb_spec (Alert.id a) (Alert.id alert)); congruence.
  - induction alerts as [|a rest IH]; [constructor|].
    simpl. destruct (negb _); [apply sublist_skip|apply sublist_cons]; exact IH.
  - induction alerts as [|a rest IH]; [reflexivity|].
    intros Hall. simpl.
    destruct (String.eqb_spec (Alert.id a) (Alert.id alert)) as [Heq|_].
    + exfalso. exact (Hall a (or_introl eq_refl) Heq).
    + simpl. f_equal. apply IH. intros b Hb. apply Hall. right. exact Hb.
  - induction alerts as [|a rest IH]; [intros _ []|].
    intros Hnd Hin. simpl.
    assert (Hnd' : unique_ids rest) by (inversion Hnd; assumption).
    destruct (String.eqb_spec (Alert.id a) (Alert.id alert)) as [Heq|Hne].
    + simpl. f_equal.
      assert (Hrest : forall b, In b rest -> Alert.id b <> Alert.id alert).
      { intros b Hb Hid. inversion Hnd as [|? ? Hx _]; subst.
        apply Hx. rewrite Heq, <- Hid. apply in_map. exact Hb. }
      clear IH Hnd Hnd' Hin. induction rest as [|b rest IH]; [reflexivity|].
      simpl. destruct (String.eqb_spec (Alert.id b) (Alert.id alert)) as [Hb|_].
      * exfalso. exact (Hrest b (or_introl eq_refl) Hb).
      * simpl. f_equal. apply IH. intros c Hc. apply Hrest. right. exact Hc.
    + simpl. f_equal. apply IH; [exact Hnd'|].
      destruct Hin as [->|Hin]; [contradiction|exact Hin].
Qed.

(** X4.  In the store, [removeAlert] undoes [addAlert] of an alert whose
    id no stored alert has, and [updateAlert] and [removeAlert] of an id
    that no stored alert has leave the state as it is. *)
Theorem store_add_remove_and_missing_id (state : useStore.AppState)
    (alert : Alert.t) (id : string) (updates : useStore.Updates) :
  ((forall a, In a (useStore.alerts state) -> Alert.id a <> Alert.id alert) ->
   useStore.removeAlert (Alert.id alert) (useStore.addAlert alert state) = state) /\
  ((forall a, In a (useStore.alerts state) -> Alert.id a <> id) ->
   useStore.updateAlert id updates state = state /\
   useStore.removeAlert id state = state).
Proof.
  destruct state as [alerts profile].
  unfold useStore.removeAlert, useStore.addAlert, useStore.updateAlert. simpl.
  assert (Hfilter : forall i l,
             (forall a, In a l -> Alert.id a <> i) ->
             List.filter (fun a : Alert.t => negb (String.eqb (Alert.id a) i)) l = l).
  { intros i l. induction l as [|a rest IH]; [reflexivity|].
    intros Hall. simpl.
    destruct (String.eqb_spec (Alert.id a) i) as [Heq|_].
    - exfalso. exact (Hall a (or_introl eq_refl) Heq).
    - simpl. f_equal. apply IH. intros b Hb. apply Hall. right. exact Hb. }
  split.
  - intros Hfresh. rewrite String.eqb_refl. simpl.
    rewrite (Hfilter _ _ Hfresh). reflexivity.
  - intros Hmissing. split; f_equal; [|apply Hfilter; exact Hmissing].
    induction alerts as [|a rest IH]; [reflexivity|].
    simpl. destruct (String.eqb_spec (Alert.id a) id) as [Heq|_].
    + exfalso. exact (Hmissing a (or_introl eq_refl) Heq).
    + f_equal. apply IH. intros b Hb. apply Hmissing. right. exact Hb.
Qed.

(** X5.  With unique ids, the list [toggleAlertStatus] shows optimistically
    for an alert of the list is the list the store's [updateAlert] gives
    for the patch sent to the backend, [{ is_active: !alert.is_active }]:
    what is shown is what the update will make of the row. *)
Theorem optimistic_toggle_is_the_patch (alerts : list Alert.t)
    (alert : Alert.t) (profile : option Profile.t) :
  unique_ids alerts -> In alert alerts ->
  AlertsScreen.toggled alerts alert =
  useStore.alerts
    (useStore.updateAlert (Alert.id alert)
       (useStore.only_is_active (negb (Alert.is_active alert)))
       {| useStore.alerts := alerts; useStore.profile := profile |}).
Proof.
  intros Hnd Hin. unfold AlertsScreen.toggled, useStore.updateAlert. simpl.
  apply map_ext_in. intros a Ha.
  destruct (String.eqb_spec (Alert.id a) (Alert.id alert)) as [Heq|_];
    [|reflexivity].
  rewrite (same_id_same_alert alerts a alert Hnd Ha Hin Heq).
  destruct alert. reflexivity.
Qed.

(** ** The dashboard's counts *)

Lemma count_cons (p : Alert.t -> bool) (a : Alert.t) (l : list Alert.t) :
  DashboardScreen.count p (a :: l)
  = ((if p a then 1 else 0) + DashboardScreen.count p l)%Z.
Proof.
  unfold DashboardScreen.count. simpl. destruct (p a); simpl length; lia.
Qed.

Lemma count_nonneg (p : Alert.t -> bool) (l : list Alert.t) :
  (0 <= DashboardScreen.count p l <= Z.of_nat (length l))%Z.
Proof.
  induction l as [|a rest IH]; [unfold DashboardScreen.count; simpl; lia|].
  rewrite count_cons. simpl length. destruct (p a); lia.
Qed.

Lemma price_prefix_excludes_rsi (s : string) :
  String.prefix "price" s = true -> String.prefix "rsi" s = false.
Proof.
  destruct s as [|c s]; [discriminate|]. cbn [String.prefix].
  destruct (ascii_dec "p" c) as [<-|_];
    [intros _; reflexivity | intros Hp; discriminate Hp].
Qed.

(** X6.  The counts [calculateStats] shows are consistent for every list of
    alerts: active and paused add up to the total and neither is negative;
    the three asset types, and the two signal kinds, together never count
    more than the total; "both" never exceeds either channel, and the two
    channels less "both" never exceed the total. *)
Theorem calculateStats_consistent (alerts : list Alert.t) :
  let stats := DashboardScreen.calculateStats alerts in
  let byAsset := DashboardScreen.byAssetType stats in
  let byCondition := DashboardScreen.byCondition stats in
  let byNotification := DashboardScreen.byNotification stats in
  (DashboardScreen.total stats
   = DashboardScreen.active stats + DashboardScreen.paused stats /\
   0 <= DashboardScreen.active stats /\ 0 <= DashboardScreen.paused stats /\
   0 <= DashboardScreen.crypto byAsset /\ 0 <= DashboardScreen.stock byAsset /\
   0 <= DashboardScreen.forex byAsset /\
   DashboardScreen.crypto byAsset + DashboardScreen.stock byAsset
     + DashboardScreen.forex byAsset <= DashboardScreen.total stats /\
   0 <= DashboardScreen.price byCondition /\ 0 <= DashboardScreen.rsi byCondition /\
   DashboardScreen.price byCondition + DashboardScreen.rsi byCondition
     <= DashboardScreen.total stats /\
   0 <= DashboardScreen.both byNotification /\
   DashboardScreen.both byNotification <= DashboardScreen.email byNotification /\
   DashboardScreen.both byNotification <= DashboardScreen.telegram byNotification /\
   DashboardScreen.email byNotification + DashboardScreen.telegram byNotification
     - DashboardScreen.both byNotification <= DashboardScreen.total stats)%Z.
Proof.
  unfold DashboardScreen.calculateStats. cbn zeta.
  cbn [DashboardScreen.total DashboardScreen.active DashboardScreen.paused
       DashboardScreen.byAssetType DashboardScreen.byCondition
       DashboardScreen.byNotification DashboardScreen.crypto
       DashboardScreen.stock DashboardScreen.forex DashboardScreen.price
       DashboardScreen.rsi DashboardScreen.email DashboardScreen.telegram
       DashboardScreen.both].
  induction alerts as [|a rest IH].
  - unfold DashboardScreen.count. simpl. lia.
  - rewrite !count_cons. simpl length.
    pose proof (price_prefix_excludes_rsi (Alert.condition_type a)) as Hpr.
    destruct (Alert.is_active a), (Alert.notification_email a),
      (Alert.notification_telegram a);
      destruct (String.prefix "price" (Alert.condition_type a));
      try rewrite (Hpr eq_refl);
      destruct (String.prefix "rsi" (Alert.condition_type a));
      destruct (String.eqb_spec (Alert.asset_type a) "crypto") as [Hc|Hc];
      destruct (String.eqb_spec (Alert.asset_type a) "stock") as [Hs|Hs];
      destruct (String.eqb_spec (Alert.asset_type a) "forex") as [Hf|Hf];
      try congruence; cbn [andb]; lia.
Qed.

Lemma toggled_missing (alerts : list Alert.t) (alert : Alert.t) :
  (forall a, In a alerts -> Alert.id a <> Alert.id alert) ->
  AlertsScreen.toggled alerts alert = alerts.
Proof.
  unfold AlertsScreen.toggled.
  induction alerts as [|a rest IH]; [reflexivity|].
  intros Hall. simpl.
  destruct (String.eqb_spec (Alert.id a) (Alert.id alert)) as [Heq|_].
  - exfalso. exact (Hall a (or_introl eq_refl) Heq).
  - f_equal. apply IH. intros b Hb. apply Hall. right. exact Hb.
Qed.

Lemma count_toggled_other (p : Alert.t -> bool) (alerts : list Alert.t)
    (alert : Alert.t) :
  (forall b a, p (Alert.with_is_active b a) = p a) ->
  DashboardScreen.count p (AlertsScreen.toggled alerts alert)
  = DashboardScreen.count p alerts.
Proof.
  intros Hp. unfold AlertsScreen.toggled.
  induction alerts as [|a rest IH]; [reflexivity|].
  simpl map. rewrite !count_cons, IH.
  destruct (String.eqb (Alert.id a) (Alert.id alert)); [rewrite Hp|]; reflexivity.
Qed.

Lemma count_active_toggled (alerts : list Alert.t) (alert : Alert.t) :
  unique_ids alerts -> In alert alerts ->
  DashboardScreen.count Alert.is_active (AlertsScreen.toggled alerts alert)
  = (DashboardScreen.count Alert.is_active alerts
     + (if Alert.is_active alert then -1 else 1))%Z.
Proof.
  induction alerts as [|a rest IH]; [intros _ []|].
  intros Hnd Hin. inversion Hnd as [|? ? Hx Hrest]; subst.
  destruct (String.eqb_spec (Alert.id a) (Alert.id alert)) as [Heq|Hne].
  - assert (a = alert) as ->
      by (apply (same_id_same_alert (a :: rest)); simpl; auto).
    assert (Htail : AlertsScreen.toggled rest alert = rest).
    { apply toggled_missing. intros b Hb Hid. apply Hx. rewrite <- Hid.
      apply in_map. exact Hb. }
    unfold AlertsScreen.toggled in *. simpl map.
    rewrite String.eqb_refl, Htail, !count_cons. simpl.
    destruct (Alert.is_active alert); simpl; lia.
  - destruct Hin as [->|Hin]; [contradiction|].
    specialize (IH Hrest Hin).
    unfold AlertsScreen.toggled in *. simpl map.
    destruct (String.eqb_spec (Alert.id a) (Alert.id alert)); [contradiction|].
    rewrite !count_cons, IH. lia.
Qed.

(** X7.  With unique ids, toggling an alert of the list moves exactly one
    alert between "active" and "paused" on the dashboard: the total and
    the counts by asset type, signal kind and channel stay as they were. *)
Theorem toggle_moves_one_alert (alerts : list Alert.t) (alert : Alert.t) :
  unique_ids alerts -> In alert alerts ->
  let before := DashboardScreen.calculateStats alerts in
  let after :=
    DashboardScreen.calculateStats (AlertsScreen.toggled alerts alert) in
  let moved := (if Alert.is_active alert then -1 else 1)%Z in
  DashboardScreen.total after = DashboardScreen.total before /\
  DashboardScreen.active after = (DashboardScreen.active before + moved)%Z /\
  DashboardScreen.paused after = (DashboardScreen.paused before - moved)%Z /\
  DashboardScreen.byAssetType after = DashboardScreen.byAssetType before /\
  DashboardScreen.byCondition after = DashboardScreen.byCondition before /\
  DashboardScreen.byNotification after = DashboardScreen.byNotification before.
Proof.
  intros Hnd Hin. unfold DashboardScreen.calculateStats. cbn zeta.
  cbn [DashboardScreen.total DashboardScreen.active DashboardScreen.paused
       DashboardScreen.byAssetType DashboardScreen.byCondition
       DashboardScreen.byNotification].
  rewrite (count_active_toggled alerts alert Hnd Hin).
  assert (Hlen : length (AlertsScreen.toggled alerts alert) = length alerts)
    by apply length_map.
  rewrite Hlen.
  rewrite !count_toggled_other by (intros b a; destruct a; reflexivity).
  repeat split; lia.
Qed.

(** ** The cache as a finite map *)
Section cache_map_facts.
Context {R L V : Type} `{JSON.Codec V}.

Lemma same_app_state_sound (w w' : World R L) :
  same_app_state w w' -> storage_calls w <= storage_calls w' ->
  storage_sound w -> storage_sound w'.
Proof.
  intros (_ & _ & _ & _ & _ & _ & Hr) Hc Hs n Hn.
  rewrite Hr. apply Hs. lia.
Qed.

Lemma run_op_applies (o : cache.Op V) (w : World R L) :
  storage_sound w ->
  exists w',
    cache.run_op o w = (Normal tt, w') /\
    storage_items w' = apply_op o (storage_items w) /\
    storage_sound w'.
Proof.
  intros Hs. assert (Hr : rejected w = false) by (apply Hs; lia).
  destruct o as [k v|k|k|]; simpl.
  - destruct (set_run k v w) as (w' & E & Ha & Hi & Hc & _).
    exists w'. split; [exact E|]. rewrite Hi, Hr.
    split; [destruct (JSON.stringify v); reflexivity|].
    apply (same_app_state_sound w); auto.
    rewrite Hc. destruct (JSON.stringify v); lia.
  - destruct (get_run (V := V) k w) as (w' & lg & E & Ha & Hi & Hc & _).
    exists w'. rewrite (bind_run _ _ _ _ _ E). unfold ret.
    split; [reflexivity|]. split; [exact Hi|].
    apply (same_app_state_sound w); auto. lia.
  - destruct (remove_run k w) as (w' & E & Ha & Hi & Hc).
    exists w'. split; [exact E|]. rewrite Hi, Hr. split; [reflexivity|].
    apply (same_app_state_sound w); auto. lia.
  - destruct (clear_run w) as (w' & E & Ha & Hi & Hc).
    exists w'. split; [exact E|]. rewrite Hi, Hr. split; [reflexivity|].
    apply (same_app_state_sound w); auto. lia.
Qed.

(** X8.  While the storage rejects no call, the cache behaves as a finite
    map from keys to texts: any sequence of [set], [get], [remove] and
    [clear] leaves exactly the items the map operations give, and a
    following [get] returns the parsed text the map holds for the key, or
    [null] where it holds none or the empty text. *)
Theorem cache_refines_map (ops : list (cache.Op V)) (w : World R L) :
  storage_sound w ->
  exists w',
    cache.run_ops ops w = (Normal tt, w') /\
    storage_items w' = apply_ops ops (storage_items w) /\
    forall key,
      fst (cache.get key w') =
      Normal (match apply_ops ops (storage_items w) !! key with
              | Some text =>
                  if String.eqb text "" then None
                  else parsed_value (JSON.parse text)
              | None => None
              end).
Proof.
  revert w. induction ops as [|o rest IH]; intros w Hs.
  - exists w. split; [reflexivity|]. split; [reflexivity|].
    intros key. destruct (get_run (V := V) key w)
      as (w' & lg & E & _ & _ & _ & _ & _ & Hread).
    rewrite E. simpl. rewrite Hread.
    assert (Hr : rejected w = false) by (apply Hs; lia).
    rewrite Hr. reflexivity.
  - destruct (run_op_applies o w Hs) as (w1 & E1 & Hi1 & Hs1).
    destruct (IH w1 Hs1) as (w2 & E2 & Hi2 & Hget).
    exists w2. simpl. rewrite (bind_run _ _ _ _ _ E1).
    split; [exact E2|]. unfold apply_ops in *. simpl. rewrite <- Hi1.
    split; [exact Hi2|exact Hget].
Qed.

(** X9.  Once [cache.remove(key)] or [cache.clear()] has been accepted by
    the storage, [cache.get(key)] returns [null], whatever the entry held
    before and whatever cache operations follow, as long as none of them
    sets the key again. *)
Theorem cache_get_after_remove_or_clear (key : string)
    (after : list (cache.Op V)) (w : World R L) :
  rejected w = false ->
  forallb (fun o => negb (cache.is_set_of key o)) after = true ->
  fst ((cache.remove key ;; cache.run_ops after ;; cache.get key) w)
  = Normal None /\
  fst ((cache.clear ;; cache.run_ops after ;; cache.get key) w)
  = Normal None.
Proof.
  intros Hr Hafter.
  assert (Hfrom : forall w1 : World R L,
             storage_items w1 !! key = None ->
             fst ((cache.run_ops after ;; cache.get key) w1) = Normal None).
  { intros w1 Habsent.
    destruct (run_ops_run after w1) as (w2 & E2 & _ & _ & _ & Hn).
    destruct (get_run (V := V) key w2) as (w3 & lg & E3 & _ & _ & _ & _ & _ & Hread).
    rewrite (bind_run _ _ _ _ _ E2), E3. simpl.
    rewrite Hread, (Hn key Hafter Habsent).
    destruct (rejected w2); reflexivity. }
  split.
  - destruct (remove_run key w) as (w1 & E1 & _ & Hi1 & _).
    rewrite (bind_run _ _ _ _ _ E1). apply Hfrom.
    rewrite Hi1, Hr. apply lookup_delete_eq.
  - destruct (clear_run w) as (w1 & E1 & _ & Hi1 & _).
    rewrite (bind_run _ _ _ _ _ E1). apply Hfrom.
    rewrite Hi1, Hr. apply lookup_empty.
Qed.

End cache_map_facts.

(** ** The alerts screen: the paths beside the error paths *)
Section alerts_more_facts.
Context `{JSON.Codec (list Alert.t)}.

Local Abbreviation AlertsWorld := (World Alert.t AlertsScreen.State).

Lemma reads_app (a b : list StorageCall) : reads (a ++ b) = reads a ++ reads b.
Proof. unfold reads. apply List.filter_app. Qed.

Lemma set_events_no_read (key : string) (value : list Alert.t) (w : AlertsWorld) :
  reads (storage_trace (set_events key value w)) = [].
Proof.
  destruct (set_events_quiet key value w) as (_ & _ & _ & ->).
  destruct (JSON.stringify value); reflexivity.
Qed.

(** X10.  Every run of [fetchAlerts] settles, whatever the storage and the
    backend do: it returns normally having sent its one query, with
    [loading] and [refreshing] false, so the screen renders the list (never
    the loading text) afterwards; it reads the storage once when
    [isRefresh] is false and never when it is true, as in [onRefresh]. *)
Theorem fetchAlerts_always_settles (user : option User.t) (isRefresh : bool)
    (w : AlertsWorld) :
  (exists w',
      AlertsScreen.fetchAlerts user isRefresh w = (Normal tt, w') /\
      requests (trace w') = requests (trace w) ++ [AlertsScreen.alerts_query user] /\
      AlertsScreen.render (store_alerts w') (local w')
      = AlertsScreen.AlertList (store_alerts w') (length (store_alerts w')) false /\
      AlertsScreen.modalVisible (local w') = AlertsScreen.modalVisible (local w) /\
      subscriptions w' = subscriptions w /\
      reads (storage_trace (trace w'))
      = reads (storage_trace (trace w))
          ++ (if isRefresh then [] else [GetItem "alerts"])) /\
  (exists w',
      AlertsScreen.onRefresh user w = (Normal tt, w') /\
      AlertsScreen.refreshing (local w') = false /\
      reads (storage_trace (trace w')) = reads (storage_trace (trace w))).
Proof.
  assert (Hfetch : forall (r : bool) (w0 : AlertsWorld),
             exists w',
               AlertsScreen.fetchAlerts user r w0 = (Normal tt, w') /\
               requests (trace w') =
                 requests (trace w0) ++ [AlertsScreen.alerts_query user] /\
               AlertsScreen.loading (local w') = false /\
               AlertsScreen.refreshing (local w') = false /\
               AlertsScreen.modalVisible (local w')
               = AlertsScreen.modalVisible (local w0) /\
               subscriptions w' = subscriptions w0 /\
               reads (storage_trace (trace w'))
               = reads (storage_trace (trace w0))
                   ++ (if r then [] else [GetItem "alerts"])).
  { intros r w0.
    destruct (fetchAlerts_run user r w0)
      as (w1 & pre & w' & post & _ & E & Ht & (p1 & _ & _ & p4) & _
          & (Hl & Hr & Hm) & _ & (_ & _ & s3 & _) & Hcase).
    assert (Hpost : requests post = [] /\ reads (storage_trace post) = []).
    { destruct (supabase.error _); [destruct Hcase as (-> & _); auto|].
      destruct (supabase.data _) as [rows|]; destruct Hcase as (-> & _); auto.
      destruct (set_events_quiet "alerts" rows w1) as (q1 & _).
      cbn [requests storage_trace]. rewrite q1, set_events_no_read. auto. }
    destruct Hpost as (Hq & Hrd).
    exists w'. split; [exact E|]. rewrite Ht.
    autorewrite with trace_db. cbn [requests storage_trace].
    rewrite p1, Hq, p4, !reads_app, Hrd, app_nil_r.
    repeat split; auto. destruct r; reflexivity. }
  split.
  - destruct (Hfetch isRefresh w) as (w' & E & Hq & Hl & Hr & Hm & Hs & Hrd).
    exists w'. split; [exact E|]. split; [exact Hq|].
    split; [unfold AlertsScreen.render; rewrite Hl, Hr; reflexivity|].
    auto.
  - unfold AlertsScreen.onRefresh, bind at 1.
    unfold AlertsScreen.setRefreshing at 1, modify_local at 1.
    match goal with
    | |- context [AlertsScreen.fetchAlerts user true ?w0] =>
        destruct (Hfetch true w0) as (w' & E & _ & _ & Hr & _ & _ & Hrd)
    end.
    exists w'. split; [exact E|]. split; [exact Hr|].
    rewrite Hrd. cbn [trace]. apply app_nil_r.
Qed.

(** The shared prefix of [toggleAlertStatus] and of the confirmed
    [deleteAlert] when the backend accepts the write: the world in which
    [on_success] starts. *)
Lemma optimistic_commit_run (alerts updated : list Alert.t)
    (q : supabase.Query)
    (on_success : Async (R := Alert.t) (L := AlertsScreen.State) unit)
    (label message : string) (w : AlertsWorld) :
  supabase.error (next_response w q) = None ->
  exists w2,
    (forall w', on_success w2 = (Normal tt, w') ->
                try_catch
                  (setAlerts updated ;;
                   cache.set "alerts" updated ;;
                   let* r := await_query q in
                   match supabase.error r with
                   | Some e => setAlerts alerts ;; cache.set "alerts" alerts ;; throw e
                   | None => on_success
                   end)
                  (fun _ => console_error label ;; RNAlert "Error" message []) w
                = (Normal tt, w')) /\
    trace w2 =
      trace w ++ EvSetAlerts updated :: set_events "alerts" updated w
        ++ [EvRequest q] /\
    store_alerts w2 = updated /\
    storage_items w2 =
      match JSON.stringify updated with
      | Some text => if rejected w then storage_items w
                     else <["alerts":=text]> (storage_items w)
      | None => storage_items w
      end /\
    backend w2 = backend w /\ backend_calls w2 = S (backend_calls w) /\
    local w2 = local w /\ subscriptions w2 = subscriptions w.
Proof.
  intros Herr. unfold try_catch.
  unfold bind at 1. unfold setAlerts at 1. unfold bind at 1.
  match goal with
  | |- context [cache.set "alerts" updated ?w1] =>
      destruct (set_run "alerts" updated w1)
        as (w2 & E2 & Hs2 & Hi2 & Hc2 & Ht2);
      assert (Hev : set_events "alerts" updated w1 = set_events "alerts" updated w)
        by reflexivity
  end.
  destruct Hs2 as (a1 & a2 & a3 & a4 & a5 & a6 & a7). world_simpl.
  rewrite E2.
  unfold bind at 1. unfold await_query at 1.
  unfold next_response in Herr. rewrite a6, a5, Herr.
  eexists. split.
  - intros w' Hk. rewrite Hk. reflexivity.
  - world_simpl. rewrite Ht2, Hev, <- !app_assoc. cbn [app].
    unfold rejected in *. world_simpl.
    repeat split; auto.
Qed.

(** X11.  When the backend accepts the update, [toggleAlertStatus] leaves
    the optimistic list in the store and hands it to [cache.set] once; it
    sends the one update, with [is_active] the negation of the pressed
    alert's, shows no dialog and does not refetch. *)
Theorem toggle_committed (alerts : list Alert.t) (alert : Alert.t)
    (w : AlertsWorld) :
  let q := supabase.from "alerts"
           |> supabase.update (negb (Alert.is_active alert))
           |> supabase.eq "id" (Some (Alert.id alert)) in
  supabase.error (next_response w q) = None ->
  exists w',
    AlertsScreen.toggleAlertStatus alerts alert w = (Normal tt, w') /\
    store_alerts w' = AlertsScreen.toggled alerts alert /\
    displayed (trace w') =
      displayed (trace w) ++ [AlertsScreen.toggled alerts alert] /\
    requests (trace w') = requests (trace w) ++ [q] /\
    dialogs (trace w') = dialogs (trace w) /\
    local w' = local w /\
    (forall text,
        JSON.stringify (AlertsScreen.toggled alerts alert) = Some text ->
        storage_trace (trace w') =
          storage_trace (trace w) ++ [SetItem "alerts" text] /\
        (rejected w = false -> storage_items w' !! "alerts" = Some text)).
Proof.
  intros q Herr.
  destruct (optimistic_commit_run alerts (AlertsScreen.toggled alerts alert) q
              (ret tt) "Error toggling alert:" "Failed to update alert status"
              w Herr)
    as (w2 & Hrun & Ht & Ha & Hi & _ & _ & Hl & _).
  exists w2. split; [exact (Hrun w2 eq_refl)|].
  destruct (set_events_quiet "alerts" (AlertsScreen.toggled alerts alert) w)
    as (q1 & q2 & q3 & q4).
  rewrite Ht. autorewrite with trace_db.
  cbn [requests dialogs displayed storage_trace].
  autorewrite with trace_db. cbn [requests dialogs displayed storage_trace].
  rewrite q1, q2, q3, q4, ?app_nil_r.
  repeat (split; [solve [auto]|]).
  intros text Htext. split.
  - rewrite Htext. reflexivity.
  - intros Hr. rewrite Hi, Htext, Hr. apply lookup_insert_eq.
Qed.

(** X12.  [deleteAlert] first asks for confirmation, naming the symbol.
    Answered with Cancel it does nothing more: no request, the store and
    the stored items as they were.  Answered with Delete, and the backend
    accepting the delete, it sends the delete and then the query of
    [fetchAlerts(true)] without reading the cache; the store ends with the
    refetched rows, or with the optimistic list (and the load-error
    dialog) when the refetch fails. *)
Theorem deleteAlert_outcome (user : option User.t) (alerts : list Alert.t)
    (alert : Alert.t) (w : AlertsWorld) :
  let q := supabase.from "alerts" |> supabase.delete
           |> supabase.eq "id" (Some (Alert.id alert)) in
  let confirm :=
    ("Delete Alert",
     ("Are you sure you want to delete the alert for "
        ++ Alert.symbol alert ++ "?")%string) in
  let refetched := backend w (S (backend_calls w)) (AlertsScreen.alerts_query user) in
  (exists w',
      AlertsScreen.deleteAlert user alerts alert AlertsScreen.Cancel w
      = (Normal tt, w') /\
      dialogs (trace w') = dialogs (trace w) ++ [confirm] /\
      requests (trace w') = requests (trace w) /\
      store_alerts w' = store_alerts w /\
      storage_items w' = storage_items w /\
      storage_trace (trace w') = storage_trace (trace w)) /\
  (supabase.error (next_response w q) = None ->
   exists w',
     AlertsScreen.deleteAlert user alerts alert AlertsScreen.Delete w
     = (Normal tt, w') /\
     requests (trace w') =
       requests (trace w) ++ [q; AlertsScreen.alerts_query user] /\
     reads (storage_trace (trace w')) = reads (storage_trace (trace w)) /\
     dialogs (trace w') =
       dialogs (trace w) ++ confirm
         :: match supabase.error refetched with
            | Some _ => [("Error", "Failed to load alerts")]
            | None => []
            end /\
     store_alerts w' =
       match supabase.error refetched, supabase.data refetched with
       | None, Some rows => rows
       | _, _ => AlertsScreen.without alerts alert
       end).
Proof.
  intros q confirm refetched. split.
  - unfold AlertsScreen.deleteAlert, bind, RNAlert, log, ret. world_simpl.
    eexists. split; [reflexivity|]. world_simpl. trace_simpl.
    repeat split; reflexivity.
  - intros Herr.
    unfold AlertsScreen.deleteAlert. unfold bind at 1.
    unfold RNAlert at 1, log at 1.
    match goal with
    | |- context [AlertsScreen.deleteAlert_onPress user alerts alert ?w0] =>
        set (w1 := w0)
    end.
    assert (Herr1 : supabase.error (next_response w1 q) = None) by exact Herr.
    destruct (optimistic_commit_run alerts (AlertsScreen.without alerts alert) q
                (AlertsScreen.fetchAlerts user true) "Error deleting alert:"
                "Failed to delete alert" w1 Herr1)
      as (w2 & Hrun & Ht2 & Ha2 & _ & Hb2 & Hc2 & _).
    destruct (fetchAlerts_run user true w2)
      as (w3 & pre & w' & post & _ & E & Ht & (p1 & p2 & _ & p4)
          & (Ha3 & _) & _ & _ & _ & Hcase).
    exists w'. split; [exact (Hrun w' E)|].
    assert (Hresp : next_response w2 (AlertsScreen.alerts_query user) = refetched).
    { unfold next_response, refetched. rewrite Hb2, Hc2. reflexivity. }
    rewrite Hresp in Hcase.
    destruct (set_events_quiet "alerts" (AlertsScreen.without alerts alert) w1)
      as (q1 & q2 & _ & _).
    assert (Hpost : requests post = [] /\ reads (storage_trace post) = [] /\
                    dialogs post =
                      match supabase.error refetched with
                      | Some _ => [("Error", "Failed to load alerts")]
                      | None => []
                      end /\
                    store_alerts w' =
                      match supabase.error refetched, supabase.data refetched with
                      | None, Some rows => rows
                      | _, _ => AlertsScreen.without alerts alert
                      end).
    { cbn [shown_from_cache List.last] in Ha3.
      destruct (supabase.error refetched).
      - destruct Hcase as (-> & Hs & _). repeat split; congruence.
      - destruct (supabase.data refetched) as [rows|].
        + destruct Hcase as (-> & Hs & _).
          destruct (set_events_quiet "alerts" rows w3) as (r1 & r2 & _).
          cbn [requests storage_trace dialogs].
          rewrite r1, r2, set_events_no_read. auto.
        + destruct Hcase as (-> & Hs & _). repeat split; congruence. }
    destruct Hpost as (Hq & Hrd & Hd & Hs).
    rewrite Ht, Ht2. subst w1. cbn [trace].
    autorewrite with trace_db. cbn [requests dialogs storage_trace].
    autorewrite with trace_db. cbn [requests dialogs storage_trace].
    rewrite q1, q2, p1, p2, p4, Hq, Hd, !reads_app, Hrd, set_events_no_read.
    cbn [reads List.filter app]. rewrite ?app_nil_r, <- ?app_assoc.
    repeat split; auto.
Qed.

End alerts_more_facts.

(** ** Strings *)

Lemma is_whitespace_upper (c : ascii) :
  is_whitespace (upper_char c) = is_whitespace c.
Proof. destruct c as [[] [] [] [] [] [] [] []]; reflexivity. Qed.

Lemma toUpperCase_empty (s : string) : toUpperCase s = "" <-> s = "".
Proof. destruct s; simpl; split; intros E; try discriminate; reflexivity. Qed.

Lemma trimEnd_upper (s : string) :
  trimEnd (toUpperCase s) = toUpperCase (trimEnd s).
Proof.
  induction s as [|c s IH]; [reflexivity|].
  simpl. rewrite IH, is_whitespace_upper.
  destruct (trimEnd s); simpl; [destruct (is_whitespace c)|]; reflexivity.
Qed.

Lemma trimStart_upper (s : string) :
  trimStart (toUpperCase s) = toUpperCase (trimStart s).
Proof.
  induction s as [|c s IH]; [reflexivity|].
  simpl. rewrite is_whitespace_upper.
  destruct (is_whitespace c); [exact IH|reflexivity].
Qed.

Lemma trim_upper (s : string) : trim (toUpperCase s) = toUpperCase (trim s).
Proof. unfold trim. rewrite trimEnd_upper, trimStart_upper. reflexivity. Qed.

(** X13.  Uppercasing and trimming commute, so the symbol the form checks
    ([symbol.trim()]) is blank exactly when the symbol it submits
    ([symbol.toUpperCase().trim()]) is empty; and the submitted symbol is
    stable: uppercasing and trimming it again changes nothing. *)
Theorem trim_toUpperCase_commute (s : string) :
  trim (toUpperCase s) = toUpperCase (trim s) /\
  (trim (toUpperCase s) = "" <-> trim s = "") /\
  trim (toUpperCase (trim (toUpperCase s))) = trim (toUpperCase s).
Proof.
  pose proof trim_upper as Hcomm.
  assert (Hup : forall t, toUpperCase (toUpperCase t) = toUpperCase t).
  { induction t as [|c t IH]; [reflexivity|]. simpl. rewrite IH. f_equal.
    destruct c as [[] [] [] [] [] [] [] []]; reflexivity. }
  assert (Hend : forall t, trimEnd (trimEnd t) = trimEnd t).
  { induction t as [|c t IH]; [reflexivity|]. simpl.
    destruct (trimEnd t) as [|d u] eqn:E.
    - destruct (is_whitespace c) eqn:W; simpl; [reflexivity|].
      rewrite W. reflexivity.
    - simpl in *. rewrite IH. reflexivity. }
  assert (Hstart : forall t, trimStart (trimStart t) = trimStart t).
  { induction t as [|c t IH]; [reflexivity|]. simpl.
    destruct (is_whitespace c) eqn:W; [exact IH|]. simpl. rewrite W. reflexivity. }
  assert (Hes : forall t, trimEnd (trimStart t) = trimStart (trimEnd t)).
  { induction t as [|c t IH]; [reflexivity|].
    cbn [trimStart trimEnd]. destruct (is_whitespace c) eqn:W.
    - rewrite IH. destruct (trimEnd t); [reflexivity|].
      cbn [trimStart]. rewrite W. reflexivity.
    - cbn [trimEnd]. destruct (trimEnd t);
        repeat first [rewrite W | progress cbn [trimStart]]; reflexivity. }
  split; [apply Hcomm|]. split.
  - rewrite Hcomm. apply toUpperCase_empty.
  - rewrite !Hcomm, Hup. f_equal. unfold trim.
    rewrite Hes, Hend, Hstart. reflexivity.
Qed.

(** ** The create-alert form: what a valid submit does *)
Section create_alert_more_facts.
Variable parseFloat : string -> number.

Local Abbreviation FormWorld := (World Alert.t CreateAlertModal.State).

(** A submit of a form that passes validation, by the backend's answer. *)
Lemma valid_submit_run (user : option User.t) (w : FormWorld) :
  CreateAlertModal.validation parseFloat (local w) = None ->
  let q := CreateAlertModal.insert_query parseFloat user (local w) in
  exists w',
    CreateAlertModal.handleSubmit parseFloat user w = (Normal tt, w') /\
    same_app_state w
      {| storage_items := storage_items w'; storage_rejects := storage_rejects w';
         storage_calls := storage_calls w'; backend := backend w';
         backend_calls := backend_calls w; store_alerts := store_alerts w';
         store_profile := store_profile w'; subscriptions := subscriptions w';
         trace := trace w'; local := local w |} /\
    storage_items w' = storage_items w /\
    backend_calls w' = S (backend_calls w) /\
    match supabase.error (next_response w q) with
    | None =>
        trace w' =
          trace w ++ [EvRequest q;
                      EvDialog "Success" "Alert created successfully!" [];
                      EvProp "onSuccess"; EvProp "onClose"] /\
        local w' =
          CreateAlertModal.with_loading false
            (CreateAlertModal.resetForm (local w))
    | Some e =>
        trace w' =
          trace w ++ [EvRequest q; EvConsoleError "Error creating alert:";
                      EvDialog "Error"
                        (CreateAlertModal.message_or e "Failed to create alert") []] /\
        local w' = CreateAlertModal.with_loading false (local w)
    end.
Proof.
  intros Hv q.
  unfold CreateAlertModal.handleSubmit, CreateAlertModal.validateForm.
  unfold bind at 1. rewrite Hv. unfold ret at 1. cbn [negb].
  unfold bind at 1. unfold modify_local at 1.
  unfold try_finally, try_catch. world_simpl.
  unfold bind at 1. unfold await_query at 1. world_simpl.
  unfold next_response. subst q.
  assert (Hq : CreateAlertModal.insert_query parseFloat user
                 (CreateAlertModal.with_loading true (local w))
               = CreateAlertModal.insert_query parseFloat user (local w))
    by reflexivity.
  rewrite Hq.
  destruct (supabase.error
              (backend w (backend_calls w)
                 (CreateAlertModal.insert_query parseFloat user (local w)))).
  - unfold throw, bind, console_error, RNAlert, log, modify_local.
    world_simpl. eexists. split; [reflexivity|]. world_simpl.
    rewrite <- !app_assoc. unfold same_app_state. world_simpl.
    repeat split; reflexivity.
  - unfold bind, RNAlert, log, modify_local. world_simpl.
    eexists. split; [reflexivity|]. world_simpl.
    rewrite <- !app_assoc. unfold same_app_state. world_simpl.
    repeat split; reflexivity.
Qed.

(** X14.  A submit that passes validation sends exactly one insert and
    ends with [loading] false.  When the backend accepts it, the success
    dialog is shown, the form is reset (the asset type alone is kept) and
    [onSuccess] then [onClose] are called.  When the backend answers with
    an error, the dialog shows the error's message (or "Failed to create
    alert" when it has none), no callback is called and the form keeps
    what the user typed. *)
Theorem valid_submit_outcome (user : option User.t) (w : FormWorld) :
  CreateAlertModal.validation parseFloat (local w) = None ->
  let q := CreateAlertModal.insert_query parseFloat user (local w) in
  exists w',
    CreateAlertModal.handleSubmit parseFloat user w = (Normal tt, w') /\
    requests (trace w') = requests (trace w) ++ [q] /\
    CreateAlertModal.loading (local w') = false /\
    CreateAlertModal.assetType (local w') = CreateAlertModal.assetType (local w) /\
    match supabase.error (next_response w q) with
    | None =>
        dialogs (trace w') =
          dialogs (trace w) ++ [("Success", "Alert created successfully!")] /\
        (exists before,
            trace w' = before ++ [EvProp "onSuccess"; EvProp "onClose"]) /\
        CreateAlertModal.resetForm (local w') = local w' /\
        CreateAlertModal.symbol (local w') = "" /\
        CreateAlertModal.conditionValue (local w') = ""
    | Some e =>
        dialogs (trace w') =
          dialogs (trace w)
            ++ [("Error", CreateAlertModal.message_or e "Failed to create alert")] /\
        Forall (fun ev => match ev with EvProp _ => False | _ => True end)
               (skipn (length (trace w)) (trace w')) /\
        local w' = CreateAlertModal.with_loading false (local w)
    end.
Proof.
  intros Hv q.
  destruct (valid_submit_run user w Hv) as (w' & E & _ & _ & _ & Hcase).
  exists w'. split; [exact E|]. fold q in Hcase.
  destruct (supabase.error (next_response w q)) as [e|];
    destruct Hcase as (Ht & Hl); rewrite Ht, Hl; trace_simpl.
  - repeat split; try reflexivity.
    rewrite skipn_app, skipn_all, Nat.sub_diag. simpl.
    repeat constructor.
  - repeat split; try reflexivity.
    exists (trace w ++ [EvRequest q;
                        EvDialog "Success" "Alert created successfully!" []]).
    rewrite <- app_assoc. reflexivity.
Qed.

Lemma rejected_create_run (user : option User.t) (n : nat) (w : FormWorld)
    (message : string) :
  CreateAlertModal.validation parseFloat (local w) = Some message ->
  exists w',
    CreateAlertModal.run parseFloat user
      (repeat CreateAlertModal.PressCreate n) w = (Normal tt, w') /\
    requests (trace w') = requests (trace w) /\ local w' = local w.
Proof.
  intros Hv. revert w Hv. induction n as [|n IH]; intros w Hv.
  - exists w. repeat split.
  - simpl.
    unfold CreateAlertModal.handleSubmit at 1, CreateAlertModal.validateForm at 1.
    unfold bind at 1. unfold bind at 1. rewrite Hv.
    unfold bind at 1. unfold RNAlert at 1, log at 1. unfold ret at 1.
    cbn [negb]. unfold ret at 1.
    match goal with
    | |- context [CreateAlertModal.run _ _ _ ?w1] =>
        destruct (IH w1 Hv) as (w' & E & Hq & Hl)
    end.
    exists w'. split; [exact E|]. rewrite Hq, Hl. world_simpl. trace_simpl. auto.
Qed.

(** X15.  Pressing Create again after a successful submit creates no
    duplicate: the form was reset, so every further press is stopped by
    validation and only the one insert has been sent. *)
Theorem repeated_create_sends_once (user : option User.t) (n : nat)
    (w : FormWorld) :
  CreateAlertModal.validation parseFloat (local w) = None ->
  supabase.error
    (next_response w (CreateAlertModal.insert_query parseFloat user (local w)))
  = None ->
  exists w',
    CreateAlertModal.run parseFloat user
      (repeat CreateAlertModal.PressCreate (S n)) w = (Normal tt, w') /\
    requests (trace w') =
      requests (trace w)
        ++ [CreateAlertModal.insert_query parseFloat user (local w)] /\
    submitted (trace w') =
      submitted (trace w)
        ++ [CreateAlertModal.new_alert parseFloat user (local w)].
Proof.
  intros Hv Herr.
  destruct (valid_submit_run user w Hv) as (w1 & E1 & _ & _ & _ & Hcase).
  rewrite Herr in Hcase. destruct Hcase as (Ht1 & Hl1).
  assert (Hv1 : CreateAlertModal.validation parseFloat (local w1)
                = Some "Please enter a symbol") by (rewrite Hl1; reflexivity).
  destruct (rejected_create_run user n w1 _ Hv1) as (w' & E & Hq & _).
  exists w'. cbn [repeat CreateAlertModal.run CreateAlertModal.dispatch].
  rewrite (bind_run _ _ _ _ _ E1). split; [exact E|].
  assert (Hsub : forall t t', requests t' = requests t -> submitted t' = submitted t).
  { clear. intros t t'. revert t.
    induction t' as [|ev t' IH]; intros t Hq.
    - induction t as [|ev t IHt]; [reflexivity|].
      destruct ev; simpl in *; try discriminate; auto.
    - destruct ev; simpl in *; auto.
      revert Hq. induction t as [|ev t IHt]; [discriminate|].
      destruct ev; simpl; auto.
      intros Hq. injection Hq as -> Hq. rewrite (IH t Hq). reflexivity. }
  split.
  - rewrite Hq, Ht1. trace_simpl. reflexivity.
  - rewrite (Hsub (trace w1) (trace w') Hq), Ht1. trace_simpl.
    unfold CreateAlertModal.insert_query. simpl. reflexivity.
Qed.

Lemma rejected_submit_run (user : option User.t) (w : FormWorld)
    (message : string) :
  CreateAlertModal.validation parseFloat (local w) = Some message ->
  exists w',
    CreateAlertModal.handleSubmit parseFloat user w = (Normal tt, w') /\
    trace w' = trace w ++ [EvDialog "Error" message []] /\
    local w' = local w.
Proof.
  intros Hv.
  unfold CreateAlertModal.handleSubmit, CreateAlertModal.validateForm.
  unfold bind at 1. rewrite Hv.
  unfold bind, RNAlert, log, ret. world_simpl.
  eexists. split; [reflexivity|]. world_simpl. split; reflexivity.
Qed.

(** Every insert of a run was written from a form that passed validation. *)
Lemma run_submits_validated (user : option User.t)
    (actions : list CreateAlertModal.Action) (w : FormWorld) :
  exists w' rows,
    CreateAlertModal.run parseFloat user actions w = (Normal tt, w') /\
    submitted (trace w') = submitted (trace w) ++ rows /\
    Forall (fun row =>
              exists s, CreateAlertModal.validation parseFloat s = None /\
                        row = CreateAlertModal.new_alert parseFloat user s)
           rows.
Proof.
  revert w. induction actions as [|a rest IH]; intros w.
  - exists w, []. simpl. unfold ret. rewrite app_nil_r. auto.
  - assert (Hstep : exists w1 rows1,
               CreateAlertModal.dispatch parseFloat user a w = (Normal tt, w1) /\
               submitted (trace w1) = submitted (trace w) ++ rows1 /\
               Forall (fun row =>
                         exists s,
                           CreateAlertModal.validation parseFloat s = None /\
                           row = CreateAlertModal.new_alert parseFloat user s)
                      rows1).
    { assert (Hedit : forall a0,
                 exists w1 rows1,
                   modify_local (CreateAlertModal.edit a0) w = (Normal tt, w1) /\
                   submitted (trace w1) = submitted (trace w) ++ rows1 /\
                   Forall (fun row =>
                             exists s,
                               CreateAlertModal.validation parseFloat s = None /\
                               row = CreateAlertModal.new_alert parseFloat user s)
                          rows1).
      { intros a0. unfold modify_local. do 2 eexists.
        split; [reflexivity|]. world_simpl.
        split; [symmetry; apply app_nil_r|constructor]. }
      destruct a; try apply Hedit.
      - cbn [CreateAlertModal.dispatch].
        destruct (CreateAlertModal.validation parseFloat (local w))
          as [message|] eqn:Hv.
        + destruct (rejected_submit_run user w message Hv) as (w1 & E & Ht & _).
          exists w1, []. split; [exact E|]. split; [|constructor].
          rewrite Ht. trace_simpl. reflexivity.
        + destruct (valid_submit_run user w Hv) as (w1 & E & _ & _ & _ & Hcase).
          exists w1, [CreateAlertModal.new_alert parseFloat user (local w)].
          split; [exact E|]. split.
          * destruct (supabase.error _); destruct Hcase as (Ht & _);
              rewrite Ht; trace_simpl;
              unfold CreateAlertModal.insert_query; simpl; reflexivity.
          * constructor; [|constructor]. exists (local w). auto.
      - simpl. unfold CreateAlertModal.handleClose, bind, modify_local, log.
        world_simpl. do 2 eexists. split; [reflexivity|]. world_simpl.
        split; [trace_simpl; reflexivity|constructor]. }
    destruct Hstep as (w1 & rows1 & E1 & Hs1 & Hf1).
    destruct (IH w1) as (w2 & rows2 & E2 & Hs2 & Hf2).
    exists w2, (rows1 ++ rows2). simpl. rewrite (bind_run _ _ _ _ _ E1).
    split; [exact E2|].
    split; [rewrite Hs2, Hs1, app_assoc; reflexivity|].
    apply Forall_app. auto.
Qed.

(** X16.  Nothing reaches the backend unvalidated: over any sequence of
    form actions from any state of the form, every inserted row has a
    non-empty symbol and a condition value that is a number (not NaN);
    the value of an [rsi_...] row is neither below 0 nor above 100, and
    the value of a [price_...] row is not at most 0. *)
Theorem submitted_alerts_validated (user : option User.t)
    (actions : list CreateAlertModal.Action) (w : FormWorld) :
  exists w' rows,
    CreateAlertModal.run parseFloat user actions w = (Normal tt, w') /\
    submitted (trace w') = submitted (trace w) ++ rows /\
    Forall (fun row =>
              NewAlert.symbol row <> "" /\
              PrimFloat.is_nan (NewAlert.condition_value row) = false /\
              (String.prefix "rsi" (NewAlert.condition_type row) = true ->
               PrimFloat.ltb (NewAlert.condition_value row) 0 = false /\
               PrimFloat.ltb 100 (NewAlert.condition_value row) = false) /\
              (String.prefix "price" (NewAlert.condition_type row) = true ->
               PrimFloat.leb (NewAlert.condition_value row) 0 = false))
           rows.
Proof.
  destruct (run_submits_validated user actions w) as (w' & rows & E & Hs & Hf).
  exists w', rows. split; [exact E|]. split; [exact Hs|].
  eapply Forall_impl; [exact Hf|].
  intros row (s & Hv & ->).
  unfold CreateAlertModal.new_alert. cbn [NewAlert.symbol NewAlert.condition_type
                                          NewAlert.condition_value].
  unfold CreateAlertModal.validation in Hv.
  destruct (String.eqb_spec (trim (CreateAlertModal.symbol s)) "") as [|Hsym];
    [discriminate|].
  destruct (String.eqb (trim (CreateAlertModal.conditionValue s)) "");
    [discriminate|].
  destruct (PrimFloat.is_nan (parseFloat (CreateAlertModal.conditionValue s)));
    [discriminate|].
  split.
  { rewrite trim_upper. intros E0. exact (Hsym (proj1 (toUpperCase_empty _) E0)). }
  split; [reflexivity|].
  unfold CreateAlertModal.getConditionType.
  destruct (CreateAlertModal.signalType s).
  - destruct (PrimFloat.leb (parseFloat (CreateAlertModal.conditionValue s)) 0);
      [discriminate|].
    split; [|reflexivity].
    destruct (CreateAlertModal.alertType s); cbn; discriminate.
  - destruct (PrimFloat.ltb (parseFloat (CreateAlertModal.conditionValue s)) 0);
      [discriminate|].
    destruct (PrimFloat.ltb 100 (parseFloat (CreateAlertModal.conditionValue s)));
      [discriminate|].
    split; [auto|].
    destruct (CreateAlertModal.alertType s); cbn; discriminate.
Qed.

End create_alert_more_facts.

(** ** From the form to the list: titles, badges and condition texts *)

Lemma string_app_inv_head (p a b : string) :
  (p ++ a)%string = (p ++ b)%string -> a = b.
Proof.
  induction p as [|c p IH]; simpl; [auto|].
  intros E. injection E as E. auto.
Qed.

(** X17.  For every form whose operator is one of the rendered cards the
    title is read from the title map, never the fallback
    [`${symbolName} Alert`]: it is the symbol (uppercased, trimmed), the
    signal's name, [crosses] for a cross alert, the direction, and the
    value as typed, preceded by [$] for a price. *)
Theorem created_alert_title (s : CreateAlertModal.State) :
  operator_rendered s ->
  let symbolName := trim (toUpperCase (CreateAlertModal.symbol s)) in
  CreateAlertModal.generateTitle s =
    (symbolName ++ " "
       ++ match CreateAlertModal.signalType s with
          | CreateAlertModal.price => "price"
          | CreateAlertModal.rsi => "RSI"
          end
       ++ match CreateAlertModal.alertType s with
          | CreateAlertModal.cross => " crosses "
          | CreateAlertModal.threshold => " "
          end
       ++ replace "cross_" "" (CreateAlertModal.operator s)
       ++ match CreateAlertModal.signalType s with
          | CreateAlertModal.price => " $"
          | CreateAlertModal.rsi => " "
          end
       ++ CreateAlertModal.conditionValue s)%string /\
  (CreateAlertModal.generateTitle s = (symbolName ++ " Alert")%string -> False).
Proof.
  intros Hop symbolName.
  unfold operator_rendered, CreateAlertModal.getOperators in Hop.
  assert (Htitle :
    CreateAlertModal.generateTitle s =
    (symbolName ++ " "
       ++ match CreateAlertModal.signalType s with
          | CreateAlertModal.price => "price"
          | CreateAlertModal.rsi => "RSI"
          end
       ++ match CreateAlertModal.alertType s with
          | CreateAlertModal.cross => " crosses "
          | CreateAlertModal.threshold => " "
          end
       ++ replace "cross_" "" (CreateAlertModal.operator s)
       ++ match CreateAlertModal.signalType s with
          | CreateAlertModal.price => " $"
          | CreateAlertModal.rsi => " "
          end
       ++ CreateAlertModal.conditionValue s)%string).
  { unfold CreateAlertModal.generateTitle, CreateAlertModal.getConditionType.
    fold symbolName.
    destruct (CreateAlertModal.alertType s), (CreateAlertModal.signalType s);
      simpl in Hop; destruct Hop as [<-|[<-|[]]]; reflexivity. }
  split; [exact Htitle|].
  rewrite Htitle. intros E. apply string_app_inv_head in E.
  destruct (CreateAlertModal.signalType s); simpl in E; discriminate E.
Qed.

Section created_alert_display.
Variable toLocaleString : number -> string.
Variable toString : number -> string.

(** X18.  An alert whose condition type was written by the form (with an
    operator among the rendered cards) is listed with the Cross badge in
    yellow exactly when it was created as a cross alert (Threshold in
    blue otherwise), and its condition text is read from the text map,
    never the raw condition type: the signal's name, [crosses] for a
    cross alert, the icon of the operator card that was selected, and
    the value, as [$] and [toLocaleString] for a price and as [toString]
    for an RSI. *)
Theorem created_alert_display (s : CreateAlertModal.State) (alert : Alert.t) :
  operator_rendered s ->
  Alert.condition_type alert = CreateAlertModal.getConditionType s ->
  AlertsScreen.getAlertTypeBadge alert =
    match CreateAlertModal.alertType s with
    | CreateAlertModal.cross =>
        {| AlertsScreen.label := "Cross";
           AlertsScreen.color := AlertsScreen.colors_yellow |}
    | CreateAlertModal.threshold =>
        {| AlertsScreen.label := "Threshold";
           AlertsScreen.color := AlertsScreen.colors_blue |}
    end /\
  exists card,
    In card (CreateAlertModal.getOperators s) /\
    CreateAlertModal.value card = CreateAlertModal.operator s /\
    AlertsScreen.getConditionDisplay toLocaleString toString alert =
      (match CreateAlertModal.signalType s with
       | CreateAlertModal.price => "Price"
       | CreateAlertModal.rsi => "RSI"
       end
       ++ match CreateAlertModal.alertType s with
          | CreateAlertModal.cross => " crosses "
          | CreateAlertModal.threshold => " "
          end
       ++ CreateAlertModal.icon card ++ " "
       ++ match CreateAlertModal.signalType s with
          | CreateAlertModal.price =>
              "$" ++ toLocaleString (Alert.condition_value alert)
          | CreateAlertModal.rsi => toString (Alert.condition_value alert)
          end)%string.
Proof.
  unfold operator_rendered, CreateAlertModal.getOperators,
    CreateAlertModal.getConditionType,
    AlertsScreen.getAlertTypeBadge, AlertsScreen.getConditionDisplay.
  intros Hop ->.
  destruct (CreateAlertModal.alertType s), (CreateAlertModal.signalType s);
    simpl in Hop; destruct Hop as [Hop|[Hop|[]]]; rewrite <- Hop;
    (split; [reflexivity|]);
    first
      [ eexists; split; [left; reflexivity|]; split; [reflexivity|]; reflexivity
      | eexists; split; [right; left; reflexivity|];
        split; [reflexivity|]; reflexivity ].
Qed.

End created_alert_display.

(** ** The audit-trail screen: how a fetch ends *)
Section admin_more_facts.

Local Abbreviation AdminWorld := (World AuditTrailEntry.t AdminScreen.State).

(** X19.  A fetch of the audit trail always settles: it returns with
    [loading] and [refreshing] both false, so an admin is shown the list
    and never left on the loading view.  When the backend answers with an
    error the error dialog is shown and the entries already listed stay;
    when it answers with rows they replace the list and no dialog is
    shown; an answer with neither keeps the list. *)
Theorem fetchAuditTrail_settles (isRefresh : bool) (profile : option Profile.t)
    (w : AdminWorld) :
  AdminScreen.is_admin profile = true ->
  exists w',
    AdminScreen.fetchAuditTrail isRefresh w = (Normal tt, w') /\
    AdminScreen.render profile (local w') =
      AdminScreen.AuditList (AdminScreen.auditData (local w')) false /\
    match supabase.error (next_response w AdminScreen.audit_query),
          supabase.data (next_response w AdminScreen.audit_query) with
    | Some _, _ =>
        dialogs (trace w') =
          dialogs (trace w) ++ [("Error", "Failed to load audit trail")] /\
        AdminScreen.auditData (local w') = AdminScreen.auditData (local w)
    | None, Some rows =>
        dialogs (trace w') = dialogs (trace w) /\
        AdminScreen.auditData (local w') = rows
    | None, None =>
        dialogs (trace w') = dialogs (trace w) /\
        AdminScreen.auditData (local w') = AdminScreen.auditData (local w)
    end.
Proof.
  intros Hp.
  unfold AdminScreen.render. rewrite Hp. cbn [negb].
  unfold AdminScreen.fetchAuditTrail, try_finally, try_catch, next_response.
  destruct isRefresh.
  - unfold bind at 1. unfold AdminScreen.setRefreshing at 1, modify_local at 1.
    unfold bind at 1. unfold await_query at 1. world_simpl.
    destruct (supabase.error (backend w (backend_calls w) AdminScreen.audit_query)).
    + unfold throw, bind, console_error, RNAlert, log, AdminScreen.setLoading,
        AdminScreen.setRefreshing, modify_local. world_simpl.
      eexists. split; [reflexivity|]. world_simpl.
      trace_simpl. repeat split; reflexivity.
    + destruct (supabase.data (backend w (backend_calls w) AdminScreen.audit_query)).
      * unfold bind, AdminScreen.setAuditData, AdminScreen.setLoading,
          AdminScreen.setRefreshing, modify_local. world_simpl.
        eexists. split; [reflexivity|]. world_simpl.
        trace_simpl. repeat split; reflexivity.
      * unfold bind, ret, AdminScreen.setLoading,
          AdminScreen.setRefreshing, modify_local. world_simpl.
        eexists. split; [reflexivity|]. world_simpl.
        trace_simpl. repeat split; reflexivity.
  - unfold bind at 1. unfold ret at 1.
    unfold bind at 1. unfold await_query at 1. world_simpl.
    destruct (supabase.error (backend w (backend_calls w) AdminScreen.audit_query)).
    + unfold throw, bind, console_error, RNAlert, log, AdminScreen.setLoading,
        AdminScreen.setRefreshing, modify_local. world_simpl.
      eexists. split; [reflexivity|]. world_simpl.
      trace_simpl. repeat split; reflexivity.
    + destruct (supabase.data (backend w (backend_calls w) AdminScreen.audit_query)).
      * unfold bind, AdminScreen.setAuditData, AdminScreen.setLoading,
          AdminScreen.setRefreshing, modify_local. world_simpl.
        eexists. split; [reflexivity|]. world_simpl.
        trace_simpl. repeat split; reflexivity.
      * unfold bind, ret, AdminScreen.setLoading,
          AdminScreen.setRefreshing, modify_local. world_simpl.
        eexists. split; [reflexivity|]. world_simpl.
        trace_simpl. repeat split; reflexivity.
Qed.

End admin_more_facts.

(** ** The further properties on the sample data *)
Section more_samples.

#[local] Existing Instance Sample.alerts_codec.

Lemma sample_unique_ids : unique_ids [Sample.btc; Sample.eth].
Proof.
  unfold unique_ids. simpl. constructor.
  - intros [E|[]]. discriminate E.
  - constructor; [intros []|constructor].
Qed.

Lemma without_removes_the_id_witness :
  unique_ids [Sample.btc; Sample.eth] /\
  In Sample.btc [Sample.btc; Sample.eth] /\
  S (length (AlertsScreen.without [Sample.btc; Sample.eth] Sample.btc))
  = length [Sample.btc; Sample.eth].
Proof.
  split; [exact sample_unique_ids|].
  split; [left; reflexivity|].
  apply (proj2 (proj2 (proj2 (without_removes_the_id
                                [Sample.btc; Sample.eth] Sample.btc)))).
  - exact sample_unique_ids.
  - left. reflexivity.
Defined.

Lemma store_add_remove_and_missing_id_witness :
  let state := {| useStore.alerts := [Sample.eth]; useStore.profile := None |} in
  useStore.removeAlert "a1" (useStore.addAlert Sample.btc state) = state /\
  useStore.updateAlert "a1" (useStore.only_is_active false) state = state.
Proof.
  intros state.
  assert (Hfresh : forall a, In a (useStore.alerts state) -> Alert.id a <> "a1").
  { intros a [<-|[]]. discriminate. }
  destruct (store_add_remove_and_missing_id state Sample.btc "a1"
              (useStore.only_is_active false)) as (Hadd & Hmissing).
  split; [exact (Hadd Hfresh)|exact (proj1 (Hmissing Hfresh))].
Defined.

Lemma optimistic_toggle_is_the_patch_witness :
  AlertsScreen.toggled [Sample.btc; Sample.eth] Sample.eth =
  useStore.alerts
    (useStore.updateAlert "a2" (useStore.only_is_active true)
       {| useStore.alerts := [Sample.btc; Sample.eth];
          useStore.profile := None |}).
Proof.
  apply (optimistic_toggle_is_the_patch [Sample.btc; Sample.eth] Sample.eth None).
  - exact sample_unique_ids.
  - right. left. reflexivity.
Defined.

Lemma toggle_moves_one_alert_witness :
  let after :=
    DashboardScreen.calculateStats
      (AlertsScreen.toggled [Sample.btc; Sample.eth] Sample.eth) in
  DashboardScreen.total after = 2%Z /\
  DashboardScreen.active after = 2%Z /\
  DashboardScreen.paused after = 0%Z.
Proof.
  destruct (toggle_moves_one_alert [Sample.btc; Sample.eth] Sample.eth
              sample_unique_ids (or_intror (or_introl eq_refl)))
    as (Ht & Ha & Hp & _).
  cbv zeta. rewrite Ht, Ha, Hp. repeat split.
Defined.

Lemma cache_refines_map_witness :
  exists w',
    cache.run_ops [cache.OpSet "alerts" [Sample.btc]; cache.OpRemove "draft";
                   cache.OpClear; cache.OpSet "alerts" [Sample.eth]]
      Sample.cold_start_online = (Normal tt, w') /\
    storage_items w' = Sample.cached [Sample.eth] /\
    fst (cache.get "alerts" w') = Normal (Some [Sample.eth]) /\
    fst (cache.get "draft" w') = Normal None.
Proof.
  destruct (cache_refines_map
              [cache.OpSet "alerts" [Sample.btc]; cache.OpRemove "draft";
               cache.OpClear; cache.OpSet "alerts" [Sample.eth]]
              Sample.cold_start_online)
    as (w' & E & Hi & Hget).
  { intros n _. reflexivity. }
  exists w'. split; [exact E|].
  split; [rewrite Hi; vm_compute; reflexivity|].
  split; rewrite Hget; vm_compute; reflexivity.
Defined.

Lemma cache_get_after_remove_or_clear_witness :
  fst ((cache.remove "alerts" ;;
        cache.run_ops [cache.OpGet "alerts"; cache.OpSet "draft" [Sample.eth]] ;;
        cache.get "alerts") Sample.cold_start_online)
  = Normal None.
Proof.
  apply (proj1 (cache_get_after_remove_or_clear "alerts"
                  [cache.OpGet "alerts"; cache.OpSet "draft" [Sample.eth]]
                  Sample.cold_start_online eq_refl eq_refl)).
Defined.

Lemma toggle_committed_witness :
  exists w',
    AlertsScreen.toggleAlertStatus [Sample.btc; Sample.eth] Sample.btc
      Sample.online_screen = (Normal tt, w') /\
    store_alerts w' = [Alert.with_is_active false Sample.btc; Sample.eth] /\
    dialogs (trace w') = [] /\
    storage_items w' !! "alerts"
    = Some (Sample.json_alerts [Alert.with_is_active false Sample.btc; Sample.eth]).
Proof.
  destruct (toggle_committed [Sample.btc; Sample.eth] Sample.btc Sample.online_screen
              eq_refl)
    as (w' & E & Ha & _ & _ & Hd & _ & Hcache).
  exists w'. split; [exact E|]. split; [exact Ha|]. split; [exact Hd|].
  exact (proj2 (Hcache _ eq_refl) eq_refl).
Defined.

Lemma deleteAlert_outcome_witness :
  exists w',
    AlertsScreen.deleteAlert (Some Sample.u1) [Sample.btc; Sample.eth]
      Sample.btc AlertsScreen.Delete Sample.online_screen = (Normal tt, w') /\
    store_alerts w' = [Sample.eth] /\
    requests (trace w') =
      [supabase.from "alerts" |> supabase.delete
       |> supabase.eq "id" (Some "a1");
       AlertsScreen.alerts_query (Some Sample.u1)] /\
    dialogs (trace w') =
      [("Delete Alert", "Are you sure you want to delete the alert for BTC?")].
Proof.
  destruct (proj2 (deleteAlert_outcome (Some Sample.u1) [Sample.btc; Sample.eth]
                     Sample.btc Sample.online_screen) eq_refl)
    as (w' & E & Hq & _ & Hd & Ha).
  exists w'. split; [exact E|]. split; [exact Ha|].
  split; [exact Hq|exact Hd].
Defined.

Lemma valid_submit_outcome_witness :
  exists w',
    CreateAlertModal.handleSubmit Sample.parseFloat (Some Sample.u1) Sample.valid_form
    = (Normal tt, w') /\
    dialogs (trace w') = [("Success", "Alert created successfully!")] /\
    CreateAlertModal.symbol (local w') = "" /\
    CreateAlertModal.loading (local w') = false.
Proof.
  assert (Hvalid : CreateAlertModal.validation Sample.parseFloat (local Sample.valid_form)
                   = None) by (vm_compute; reflexivity).
  destruct (valid_submit_outcome Sample.parseFloat (Some Sample.u1) Sample.valid_form
              Hvalid)
    as (w' & E & _ & Hl & _ & Hcase).
  exists w'. split; [exact E|].
  destruct Hcase as (Hd & _ & _ & Hs & _).
  split; [exact Hd|]. split; [exact Hs|exact Hl].
Defined.

Lemma repeated_create_sends_once_witness :
  exists w',
    CreateAlertModal.run Sample.parseFloat (Some Sample.u1)
      [CreateAlertModal.PressCreate; CreateAlertModal.PressCreate;
       CreateAlertModal.PressCreate] Sample.valid_form = (Normal tt, w') /\
    length (requests (trace w')) = 1 /\
    map NewAlert.symbol (submitted (trace w')) = ["BTC"].
Proof.
  assert (Hvalid : CreateAlertModal.validation Sample.parseFloat (local Sample.valid_form)
                   = None) by (vm_compute; reflexivity).
  destruct (repeated_create_sends_once Sample.parseFloat (Some Sample.u1) 2
              Sample.valid_form Hvalid eq_refl)
    as (w' & E & Hq & Hs).
  exists w'. split; [exact E|]. rewrite Hq, Hs. split; reflexivity.
Defined.

Lemma created_alert_title_witness :
  CreateAlertModal.generateTitle Sample.rsi_form = "ETH RSI below 30".
Proof.
  apply (proj1 (created_alert_title Sample.rsi_form (or_intror (or_introl eq_refl)))).
Defined.

Lemma created_alert_display_witness :
  AlertsScreen.getAlertTypeBadge Sample.eth =
    {| AlertsScreen.label := "Threshold";
       AlertsScreen.color := AlertsScreen.colors_blue |} /\
  AlertsScreen.getConditionDisplay Sample.json_number Sample.json_number
    Sample.eth = "RSI ≤ 30".
Proof.
  destruct (created_alert_display Sample.json_number Sample.json_number
              Sample.rsi_form Sample.eth (or_intror (or_introl eq_refl)) eq_refl)
    as (Hb & card & Hin & Hv & Hd).
  split; [exact Hb|].
  destruct Hin as [<-|[<-|[]]]; [discriminate Hv|].
  rewrite Hd. vm_compute. reflexivity.
Defined.

Lemma fetchAuditTrail_settles_witness :
  exists w',
    AdminScreen.fetchAuditTrail true Sample.audit_screen = (Normal tt, w') /\
    AdminScreen.render (Some Sample.admin) (local w')
    = AdminScreen.AuditList [] false /\
    dialogs (trace w') = [].
Proof.
  destruct (fetchAuditTrail_settles true (Some Sample.admin)
              Sample.audit_screen eq_refl)
    as (w' & E & Hr & Hd & Ha).
  exists w'. split; [exact E|]. rewrite Hr, Ha. split; [reflexivity|exact Hd].
Defined.

End more_samples.
